(** * mobingi/session: configuration resolution and access-token exchange

    A shallow embedding of [src/mobingi/session/session.go].

    - Go strings are [string]; Go [int] is [Z] (the code only compares and
      prints [ApiVersion], so no wrap-around arises).
    - A [*Config] is a location in a store of [Config] objects, because
      [getAccessToken] writes [s.Config.Scope] through that pointer.
    - The process environment, the network and the Go standard-library
      functions the file calls are explicit parameters ([World], [GoLib]).
    - Every network call is logged in a trace, so that "no network call"
      is a statement about the trace. *)

From Stdlib Require Import ZArith String Ascii List DecimalString.
From Stdlib Require Import Floats.SpecFloat.
From stdpp Require Import base option list gmap strings.

#[local] Set Warnings "-register-all".
#[local] Arguments String.append !_ _ / : simpl nomatch.

Local Open Scope string_scope.
Local Open Scope Z_scope.

(* ===================================================================== *)
(** ** Constants (session.go, lines 17-21) *)

Definition BASE_API_URL : string := "https://api.mobingi.com".
Definition BASE_REGISTRY_URL : string := "https://registry.mobingi.com".
Definition SESHA3_URL : string := "https://sesha3.mobingi.com".

(* ===================================================================== *)
(** ** Data model *)

(** Addresses of heap objects. *)
Definition loc := nat.

(** [authPayload] (lines 23-30).  [Username] and [Password] have type
    [interface{}]: [None] is the nil interface, [Some s] an interface
    holding the string [s] (possibly empty). *)
Module authPayload.
Record t := mk {
  ClientId : string;
  ClientSecret : string;
  GrantType : string;
  Scope : string;
  Username : option string;
  Password : option string
}.
End authPayload.

(** [Config] (lines 32-82).  [HttpClientConfig] is a pointer to an
    [httpclient.Config], a type of package [pkg/httpclient]; only its
    being nil or not is inspected here, so it is kept as an optional
    address. *)
Module Config.
Record t := mk {
  ClientId : string;
  ClientSecret : string;
  GrantType : string;
  Scope : string;
  Username : string;
  Password : string;
  AccessToken : string;
  ApiVersion : Z;
  BaseApiUrl : string;
  BaseRegistryUrl : string;
  Sesha3Url : string;
  UseForm : bool;
  HttpClientConfig : option loc
}.

(** The zero value [Config{}]. *)
Definition zero : t :=
  mk "" "" "" "" "" "" "" 0 "" "" "" false None.

(** Field assignments [c.F = v]. *)
Definition set_ClientId (v : string) (c : t) : t :=
  mk v (ClientSecret c) (GrantType c) (Scope c) (Username c) (Password c)
     (AccessToken c) (ApiVersion c) (BaseApiUrl c) (BaseRegistryUrl c)
     (Sesha3Url c) (UseForm c) (HttpClientConfig c).
Definition set_ClientSecret (v : string) (c : t) : t :=
  mk (ClientId c) v (GrantType c) (Scope c) (Username c) (Password c)
     (AccessToken c) (ApiVersion c) (BaseApiUrl c) (BaseRegistryUrl c)
     (Sesha3Url c) (UseForm c) (HttpClientConfig c).
Definition set_GrantType (v : string) (c : t) : t :=
  mk (ClientId c) (ClientSecret c) v (Scope c) (Username c) (Password c)
     (AccessToken c) (ApiVersion c) (BaseApiUrl c) (BaseRegistryUrl c)
     (Sesha3Url c) (UseForm c) (HttpClientConfig c).
Definition set_Scope (v : string) (c : t) : t :=
  mk (ClientId c) (ClientSecret c) (GrantType c) v (Username c) (Password c)
     (AccessToken c) (ApiVersion c) (BaseApiUrl c) (BaseRegistryUrl c)
     (Sesha3Url c) (UseForm c) (HttpClientConfig c).
Definition set_Username (v : string) (c : t) : t :=
  mk (ClientId c) (ClientSecret c) (GrantType c) (Scope c) v (Password c)
     (AccessToken c) (ApiVersion c) (BaseApiUrl c) (BaseRegistryUrl c)
     (Sesha3Url c) (UseForm c) (HttpClientConfig c).
Definition set_Password (v : string) (c : t) : t :=
  mk (ClientId c) (ClientSecret c) (GrantType c) (Scope c) (Username c) v
     (AccessToken c) (ApiVersion c) (BaseApiUrl c) (BaseRegistryUrl c)
     (Sesha3Url c) (UseForm c) (HttpClientConfig c).
Definition set_AccessToken (v : string) (c : t) : t :=
  mk (ClientId c) (ClientSecret c) (GrantType c) (Scope c) (Username c)
     (Password c) v (ApiVersion c) (BaseApiUrl c) (BaseRegistryUrl c)
     (Sesha3Url c) (UseForm c) (HttpClientConfig c).
Definition set_ApiVersion (v : Z) (c : t) : t :=
  mk (ClientId c) (ClientSecret c) (GrantType c) (Scope c) (Username c)
     (Password c) (AccessToken c) v (BaseApiUrl c) (BaseRegistryUrl c)
     (Sesha3Url c) (UseForm c) (HttpClientConfig c).
Definition set_BaseApiUrl (v : string) (c : t) : t :=
  mk (ClientId c) (ClientSecret c) (GrantType c) (Scope c) (Username c)
     (Password c) (AccessToken c) (ApiVersion c) v (BaseRegistryUrl c)
     (Sesha3Url c) (UseForm c) (HttpClientConfig c).
Definition set_BaseRegistryUrl (v : string) (c : t) : t :=
  mk (ClientId c) (ClientSecret c) (GrantType c) (Scope c) (Username c)
     (Password c) (AccessToken c) (ApiVersion c) (BaseApiUrl c) v
     (Sesha3Url c) (UseForm c) (HttpClientConfig c).
Definition set_Sesha3Url (v : string) (c : t) : t :=
  mk (ClientId c) (ClientSecret c) (GrantType c) (Scope c) (Username c)
     (Password c) (AccessToken c) (ApiVersion c) (BaseApiUrl c)
     (BaseRegistryUrl c) v (UseForm c) (HttpClientConfig c).
Definition set_UseForm (v : bool) (c : t) : t :=
  mk (ClientId c) (ClientSecret c) (GrantType c) (Scope c) (Username c)
     (Password c) (AccessToken c) (ApiVersion c) (BaseApiUrl c)
     (BaseRegistryUrl c) (Sesha3Url c) v (HttpClientConfig c).
Definition set_HttpClientConfig (v : option loc) (c : t) : t :=
  mk (ClientId c) (ClientSecret c) (GrantType c) (Scope c) (Username c)
     (Password c) (AccessToken c) (ApiVersion c) (BaseApiUrl c)
     (BaseRegistryUrl c) (Sesha3Url c) (UseForm c) v.
End Config.

(** [Session] (lines 84-87): a pointer to its [Config] and the token. *)
Module Session.
Record t := mk {
  Config : loc;
  AccessToken : string
}.
End Session.

(** Go [error] values built in this file: [errors.New], [fmt.Errorf]
    (without verbs), [errors.Wrap] of github.com/pkg/errors, and errors
    handed back by library calls. *)
Inductive error :=
| errors_New (msg : string)
| fmt_Errorf (msg : string)
| errors_Wrap (cause : error) (msg : string)
| lib_error (msg : string).

(** The [Error()] method: a wrapped error prints as its label, a colon
    and a space, then the cause. *)
Fixpoint Error (e : error) : string :=
  match e with
  | errors_New m => m
  | fmt_Errorf m => m
  | errors_Wrap c m => m +:+ ": " +:+ Error c
  | lib_error m => m
  end.

(** [strings.Contains s sub] as a proposition. *)
Definition contains (s sub : string) : Prop :=
  exists pre post, s = pre +:+ sub +:+ post.

(** [http.Header] and [url.Values]: [map[string][]string]. *)
Abbreviation Header := (gmap string (list string)).
Abbreviation Values := (gmap string (list string)).

(** [Header.Add] / [Values.Add]: append a value under a key.  The keys
    used in this file ("Authorization", "Content-Type") are already in
    canonical MIME form, so canonicalisation is the identity on them. *)
Definition map_Add (key value : string) (h : gmap string (list string))
  : gmap string (list string) :=
  <[ key := (default [] (h !! key) ++ [value])%list ]> h.

(** The part of [http.Request] this file touches. *)
Record Request := mkRequest {
  Method : string;
  URL : string;
  ReqHeader : Header;
  ReqBody : option string
}.

Definition Request_Header_Add (key value : string) (r : Request) : Request :=
  mkRequest (Method r) (URL r) (map_Add key value (ReqHeader r)) (ReqBody r).

(** The part of [http.Response] this file reads, with the bytes read
    from its body. *)
Record Response := mkResponse {
  StatusCode : Z;
  Status : string;
  RespBody : string
}.

(** Values [json.Unmarshal] stores in an [interface{}]: nil, bool,
    float64, string, []interface{} and map[string]interface{}.  A nested
    map lists its entries in increasing key order, the order in which
    [fmt] prints a map. *)
Inductive JSON :=
| JNull
| JBool (b : bool)
| JNumber (f : spec_float)
| JString (s : string)
| JArray (l : list JSON)
| JObject (m : list (string * JSON)).

(* ===================================================================== *)
(** ** The Go library functions called by session.go *)

(** Pure functions of the Go standard library whose code is outside this
    package.  They are parameters of the development: every theorem holds
    for any choice of them. *)
Record GoLib := mkGoLib {
  (** [url.Parse u]: the parse error, if there is one. *)
  url_Parse : string -> option error;
  (** [strconv.Quote], the [%q] verb of [fmt]. *)
  strconv_Quote : string -> string;
  (** [encoding/json]'s encoding of a Go string as a JSON string literal. *)
  json_encodeString : string -> string;
  (** [json.Unmarshal body &m] for [m : map[string]interface{}]: the
      decoded object (the JSON text [null] leaves [m] nil, read as the
      empty map) or the decoding error. *)
  json_Unmarshal : string -> gmap string JSON + error;
  (** [fmt]'s [%v] rendering of a [float64]. *)
  fmt_float_v : spec_float -> string
}.

(** The process environment and the token endpoint.  [client_Do cfg r] is
    [httpclient.NewSimpleHttpClient(cfg).Do(r)] (no argument when [cfg]
    is nil) of package [pkg/httpclient]: the response together with its
    body, or the transport error.  [http_PostForm] is what sending the
    form POST of [http.PostForm] yields once its request is built,
    followed by [ioutil.ReadAll] on the response body, whose own error
    the code never inspects. *)
Record World := mkWorld {
  os_Getenv : string -> string;
  http_PostForm : string -> Values -> Response + error;
  client_Do : option loc -> Request -> Response + error
}.

(* ===================================================================== *)
(** ** State: the store of [Config] objects and the network trace *)

Inductive event :=
| EvPostForm (url : string) (form : Values)
| EvDo (cfg : option loc) (req : Request).

Record state := mkState {
  heap : list Config.t;
  trace : list event
}.

(** A computation either returns a value and a new state, or panics
    (a nil or dangling pointer is dereferenced). *)
Inductive outcome (A : Type) :=
| Ret (a : A) (st : state)
| Panic.
Arguments Ret {A} a st.
Arguments Panic {A}.

Definition M (A : Type) : Type := state -> outcome A.

Definition ret {A} (a : A) : M A := fun st => Ret a st.

Definition bind {A B} (m : M A) (k : A -> M B) : M B :=
  fun st => match m st with
            | Ret a st' => k a st'
            | Panic => Panic
            end.

Declare Scope go_scope.
Delimit Scope go_scope with go.
Notation "x <- m ;; k" := (bind m (fun x => k))
  (at level 100, m at next level, right associativity) : go_scope.
Notation "m ;;; k" := (bind m (fun _ => k))
  (at level 100, right associativity) : go_scope.
Local Open Scope go_scope.

(** [*p] *)
Definition load (p : loc) : M Config.t :=
  fun st => match heap st !! p with
            | Some c => Ret c st
            | None => Panic
            end.

(** [*p = c] *)
Definition store (p : loc) (c : Config.t) : M unit :=
  fun st => match heap st !! p with
            | Some _ => Ret tt (mkState (<[p := c]> (heap st)) (trace st))
            | None => Panic
            end.

(** [&Config{...}]: a fresh object. *)
Definition alloc (c : Config.t) : M loc :=
  fun st => Ret (length (heap st)) (mkState (heap st ++ [c])%list (trace st)).

(** Log a network call. *)
Definition emit (e : event) : M unit :=
  fun st => Ret tt (mkState (heap st) (trace st ++ [e])%list).

(* ===================================================================== *)
(** ** Formatting *)

(** [%d] of an [int]. *)
Definition fmt_d (n : Z) : string := NilZero.string_of_int (Z.to_int n).

Definition fmt_bool (b : bool) : string := if b then "true" else "false".

(** [fmt]'s [printValue] with verb [s] below the top level, on the values
    [json.Unmarshal] produces.  A string prints as itself; a bool or a
    float64 does not accept [%s] and prints as a bad-verb note around its
    [%v] form; a slice prints its elements between brackets, separated by
    spaces; a map prints [key:value] pairs; a nil interface element
    prints as [<nil>]. *)
Fixpoint printValue (L : GoLib) (v : JSON) : string :=
  match v with
  | JNull => "<nil>"
  | JBool b => "%!s(bool=" +:+ fmt_bool b +:+ ")"
  | JNumber f => "%!s(float64=" +:+ fmt_float_v L f +:+ ")"
  | JString s => s
  | JArray l =>
      "[" +:+
      (fix elems (l : list JSON) : string :=
         match l with
         | [] => ""
         | [x] => printValue L x
         | x :: r => printValue L x +:+ " " +:+ elems r
         end) l +:+ "]"
  | JObject m =>
      "map[" +:+
      (fix entries (m : list (string * JSON)) : string :=
         match m with
         | [] => ""
         | [(k, x)] => k +:+ ":" +:+ printValue L x
         | (k, x) :: r => k +:+ ":" +:+ printValue L x +:+ " " +:+ entries r
         end) m +:+ "]"
  end.

(** [fmt.Sprintf("%s", t)] for [t : interface{}].  At the top level a
    nil interface is a bad-verb note of its own. *)
Definition fmt_Sprintf_s (L : GoLib) (t : JSON) : string :=
  match t with
  | JNull => "%!s(<nil>)"
  | _ => printValue L t
  end.

(* ===================================================================== *)
(** ** [net/http]: building a request *)

(** [httpguts.IsTokenRune]: the characters of an HTTP token. *)
Definition isTokenRune (a : ascii) : bool :=
  let n := nat_of_ascii a in
  ((48 <=? n) && (n <=? 57) || (65 <=? n) && (n <=? 90)
   || (97 <=? n) && (n <=? 122))%nat
  || bool_decide (a ∈ ["!"; "#"; "$"; "%"; "&"; "'"; "*"; "+"; "-"; ".";
                       "^"; "_"; "`"; "|"; "~"]%char).

(** [validMethod]: non-empty and made of token characters only. *)
Definition validMethod (method : string) : bool :=
  negb (bool_decide (method = ""))
  && forallb isTokenRune (list_ascii_of_string method).

(** [http.NewRequest(m, u, body)]: the empty method means GET; the
    method must be valid and the URL must parse; the new request has an
    empty header. *)
Definition http_NewRequest (L : GoLib) (m u : string) (body : option string)
  : Request + error :=
  let method := if bool_decide (m = "") then "GET" else m in
  if negb (validMethod method) then
    inr (lib_error ("net/http: invalid method " +:+ strconv_Quote L method))
  else
    match url_Parse L u with
    | Some err => inr err
    | None => inl (mkRequest method u ∅ body)
    end.

(* ===================================================================== *)
(** ** [encoding/json]: marshalling an [authPayload] *)

Definition dquote : string := String (ascii_of_nat 34) EmptyString.

(** A string field tagged [omitempty] is left out when it is empty. *)
Definition field_string (key value : string) : list (string * string) :=
  if bool_decide (value = "") then [] else [(key, value)].

(** An [interface{}] field tagged [omitempty] is left out when the
    interface is nil; an interface holding a string, even the empty one,
    is written. *)
Definition field_iface (key : string) (value : option string)
  : list (string * string) :=
  match value with
  | None => []
  | Some v => [(key, v)]
  end.

(** The members [json.Marshal] writes for an [authPayload], in
    declaration order, under the names of the struct tags. *)
Definition authPayload_fields (p : authPayload.t) : list (string * string) :=
  (field_string "client_id" (authPayload.ClientId p)
   ++ field_string "client_secret" (authPayload.ClientSecret p)
   ++ field_string "grant_type" (authPayload.GrantType p)
   ++ field_string "scope" (authPayload.Scope p)
   ++ field_iface "username" (authPayload.Username p)
   ++ field_iface "password" (authPayload.Password p))%list.

Fixpoint json_members (L : GoLib) (fs : list (string * string)) : string :=
  match fs with
  | [] => ""
  | [(k, v)] => dquote +:+ k +:+ dquote +:+ ":" +:+ json_encodeString L v
  | (k, v) :: r =>
      dquote +:+ k +:+ dquote +:+ ":" +:+ json_encodeString L v
      +:+ "," +:+ json_members L r
  end.

(** [json.Marshal(p)] for a non-nil [p : *authPayload]. *)
Definition json_Marshal (L : GoLib) (p : authPayload.t) : string :=
  "{" +:+ json_members L (authPayload_fields p) +:+ "}".

(* ===================================================================== *)
(** ** Methods of [*Session] *)

(** [ApiEndpoint] (lines 89-96). *)
Definition ApiEndpoint (s : Session.t) : M string :=
  c <- load (Session.Config s) ;;
  if Config.ApiVersion c >? -1
  then ret (Config.BaseApiUrl c +:+ "/v" +:+ fmt_d (Config.ApiVersion c))
  else ret (Config.BaseApiUrl c).

(** [RegistryEndpoint] (lines 98-100). *)
Definition RegistryEndpoint (s : Session.t) : M string :=
  c <- load (Session.Config s) ;;
  ret (Config.BaseRegistryUrl c +:+ "/v2").

(** [Sesha3Endpoint] (lines 102-104). *)
Definition Sesha3Endpoint (s : Session.t) : M string :=
  c <- load (Session.Config s) ;;
  ret (Config.Sesha3Url c).

(** [SimpleAuthRequest] (lines 106-114): [None] is the nil request. *)
Definition SimpleAuthRequest (L : GoLib) (s : Session.t) (m u : string)
    (body : option string) : option Request :=
  match http_NewRequest L m u body with
  | inr _ => None
  | inl req =>
      Some (Request_Header_Add "Authorization"
              ("Bearer " +:+ Session.AccessToken s) req)
  end.

(** *** [getAccessToken] (lines 116-235) *)

(** Lines 129-144: the form of the form-encoded path. *)
Definition buildForm (c : Config.t) : Values :=
  let form : Values := ∅ in
  let form :=
    if bool_decide (Config.GrantType c = "client_credentials") then
      map_Add "scope" (Config.Scope c)
        (map_Add "grant_type" (Config.GrantType c)
           (map_Add "client_secret" (Config.ClientSecret c)
              (map_Add "client_id" (Config.ClientId c) form)))
    else form in
  let form :=
    if bool_decide (Config.GrantType c = "password") then
      map_Add "password" (Config.Password c)
        (map_Add "username" (Config.Username c)
           (map_Add "scope" (Config.Scope c)
              (map_Add "grant_type" (Config.GrantType c)
                 (map_Add "client_secret" (Config.ClientSecret c)
                    (map_Add "client_id" (Config.ClientId c) form)))))
    else form in
  form.

(** Lines 154-195: the payload of the JSON path, or the early return of
    line 178. *)
Definition buildPayload (c : Config.t) : authPayload.t + error :=
  let p : option authPayload.t := None in
  let p :=
    if bool_decide (Config.GrantType c = "client_credentials") then
      Some (authPayload.mk (Config.ClientId c) (Config.ClientSecret c)
              "client_credentials" (Config.Scope c) None None)
    else p in
  let p :=
    if bool_decide (Config.GrantType c = "password") then
      Some (authPayload.mk (Config.ClientId c) (Config.ClientSecret c)
              "password" (Config.Scope c)
              (Some (Config.Username c)) (Some (Config.Password c)))
    else p in
  match p with
  | Some p => inl p
  | None =>
      if bool_decide (Config.Username c ≠ "") then
        if bool_decide (Config.Password c = "") then
          inr (errors_New "password cannot be empty")
        else
          inl (authPayload.mk (Config.ClientId c) (Config.ClientSecret c)
                 "password" ""
                 (Some (Config.Username c)) (Some (Config.Password c)))
      else
        inl (authPayload.mk (Config.ClientId c) (Config.ClientSecret c)
               "client_credentials" "" None None)
  end.

(** [http.PostForm(url, form)]: the library first builds the request
    with [http.NewRequest("POST", url, ...)] and hands its error back
    without sending anything; only a request that was built is sent.
    (The body, the encoded form, plays no part in whether the request
    is built.) *)
Definition http_PostForm_run (L : GoLib) (W : World) (url : string)
    (form : Values) : M (Response + error) :=
  match http_NewRequest L "POST" url None with
  | inr err => ret (inr err)
  | inl _ =>
      emit (EvPostForm url form) ;;;
      ret (http_PostForm W url form)
  end.

(** Lines 128-217: send the credentials; the result is the response
    (with its body) or the error of an early return. *)
Definition exchange (L : GoLib) (W : World) (accessTokenUrl : string)
    (c : Config.t) : M (Response + error) :=
  if Config.UseForm c then
    let form := buildForm c in
    r <- http_PostForm_run L W accessTokenUrl form ;;
    match r with
    | inr err => ret (inr (errors_Wrap err "do failed"))
    | inl resp => ret (inl resp)
    end
  else
    match buildPayload c with
    | inr err => ret (inr err)
    | inl p =>
        let payload := json_Marshal L p in
        match http_NewRequest L "POST" accessTokenUrl (Some payload) with
        | inr err => ret (inr (errors_Wrap err "new request failed"))
        | inl r =>
            let r := Request_Header_Add "Content-Type" "application/json" r in
            emit (EvDo (Config.HttpClientConfig c) r) ;;;
            match client_Do W (Config.HttpClientConfig c) r with
            | inr err => ret (inr (errors_Wrap err "do failed"))
            | inl resp => ret (inl resp)
            end
        end
    end.

(** Lines 223-234: decode the body and read the [access_token] member. *)
Definition parseToken (L : GoLib) (body : string) : string * option error :=
  let token := "" in
  match json_Unmarshal L body with
  | inr err => (token, Some (errors_Wrap err "unmarshal failed"))
  | inl m =>
      match m !! "access_token" with
      | None => (token, Some (fmt_Errorf "cannot find access token"))
      | Some t => (fmt_Sprintf_s L t, None)
      end
  end.

(** Lines 219-234: check the status, then read the token.  Go's [/] on
    [int] truncates towards zero: [Z.quot]. *)
Definition readToken (L : GoLib) (resp : Response) : string * option error :=
  let token := "" in
  if negb (Z.quot (StatusCode resp) 100 =? 2) then
    (token, Some (errors_New (Status resp)))
  else parseToken L (RespBody resp).

(** The default of lines 124-126, as a function of the stored value. *)
Definition defaultScope (c : Config.t) : Config.t :=
  if bool_decide (Config.Scope c = "") then Config.set_Scope "openid" c else c.

(** Lines 123-217: compute the URL, default the scope in place, send the
    credentials. *)
Definition requestToken (L : GoLib) (W : World) (s : Session.t)
  : M (Response + error) :=
  ep <- ApiEndpoint s ;;
  let accessTokenUrl := ep +:+ "/access_token" in
  c <- load (Session.Config s) ;;
  (if bool_decide (Config.Scope c = "")
   then store (Session.Config s) (Config.set_Scope "openid" c)
   else ret tt) ;;;
  c <- load (Session.Config s) ;;
  exchange L W accessTokenUrl c.

Definition getAccessToken (L : GoLib) (W : World) (s : Session.t)
  : M (string * option error) :=
  let token := "" in
  r <- requestToken L W s ;;
  match r with
  | inr err => ret (token, Some err)
  | inl resp => ret (readToken L resp)
  end.

(* ===================================================================== *)
(** ** [New] (lines 237-318) *)

(** Lines 238-247: the configuration before any override. *)
Definition defaults (W : World) : Config.t :=
  Config.mk (os_Getenv W "MOBINGI_CLIENT_ID")
            (os_Getenv W "MOBINGI_CLIENT_SECRET")
            "" ""
            (os_Getenv W "MOBINGI_USERNAME")
            (os_Getenv W "MOBINGI_PASSWORD")
            "" 3 BASE_API_URL BASE_REGISTRY_URL SESHA3_URL false None.

(** [if cond { assignment }] on the configuration being built. *)
Definition when (cond : bool) (assign : Config.t -> Config.t) (c : Config.t)
  : Config.t :=
  if cond then assign c else c.

(** Lines 249-303.  [cnf] is the variadic argument: a slice of
    [*Config], each nil ([None]) or pointing to a [Config]. *)
Definition overlay (c : Config.t) (cnf : list (option Config.t)) : Config.t :=
  match cnf with
  | Some o :: _ =>
      let c := when (bool_decide (Config.ClientId o ≠ ""))
                 (Config.set_ClientId (Config.ClientId o)) c in
      let c := when (bool_decide (Config.ClientSecret o ≠ ""))
                 (Config.set_ClientSecret (Config.ClientSecret o)) c in
      let c := when (bool_decide (Config.AccessToken o ≠ ""))
                 (Config.set_AccessToken (Config.AccessToken o)) c in
      let c := when (bool_decide (Config.GrantType o ≠ ""))
                 (Config.set_GrantType (Config.GrantType o)) c in
      let c := when (bool_decide (Config.Scope o ≠ ""))
                 (Config.set_Scope (Config.Scope o)) c in
      let c := when (bool_decide (Config.Username o ≠ ""))
                 (Config.set_Username (Config.Username o)) c in
      let c := when (bool_decide (Config.Password o ≠ ""))
                 (Config.set_Password (Config.Password o)) c in
      let c := when (bool_decide (Config.ApiVersion o ≠ 0))
                 (Config.set_ApiVersion (Config.ApiVersion o)) c in
      let c := when (bool_decide (Config.BaseApiUrl o ≠ ""))
                 (Config.set_BaseApiUrl (Config.BaseApiUrl o)) c in
      let c := when (bool_decide (Config.BaseRegistryUrl o ≠ ""))
                 (Config.set_BaseRegistryUrl (Config.BaseRegistryUrl o)) c in
      let c := when (bool_decide (Config.Sesha3Url o ≠ ""))
                 (Config.set_Sesha3Url (Config.Sesha3Url o)) c in
      let c := when (Config.UseForm o)
                 (Config.set_UseForm (Config.UseForm o)) c in
      let c := when (bool_decide (Config.HttpClientConfig o ≠ None))
                 (Config.set_HttpClientConfig (Config.HttpClientConfig o)) c in
      c
  | _ => c
  end.

(** The configuration [New] resolves (lines 238-303). *)
Definition resolveConfig (W : World) (cnf : list (option Config.t)) : Config.t :=
  overlay (defaults W) cnf.

(** [New]: the result is the [*Session] ([None] would be nil) and the
    error ([None] is nil). *)
Definition New (L : GoLib) (W : World) (cnf : list (option Config.t))
  : M (option Session.t * option error) :=
  c <- alloc (resolveConfig W cnf) ;;
  let s := Session.mk c "" in
  cv <- load c ;;
  if bool_decide (Config.AccessToken cv ≠ "") then
    ret (Some (Session.mk c (Config.AccessToken cv)), None)
  else
    r <- getAccessToken L W s ;;
    match r with
    | (_, Some err) =>
        ret (Some s, Some (errors_Wrap err "get access token failed"))
    | (token, None) => ret (Some (Session.mk c token), None)
    end.

(* ===================================================================== *)
(** ** The specification's reading of configuration resolution *)

(** A field of the override is taken when it is a non-empty string, a
    non-zero integer, a true boolean or a non-nil pointer; otherwise the
    default stays. *)
Definition pick_string (dflt ovr : string) : string :=
  if bool_decide (ovr = "") then dflt else ovr.
Definition pick_int (dflt ovr : Z) : Z :=
  if bool_decide (ovr = 0) then dflt else ovr.
Definition pick_bool (dflt ovr : bool) : bool :=
  if ovr then true else dflt.
Definition pick_ptr (dflt ovr : option loc) : option loc :=
  match ovr with Some _ => ovr | None => dflt end.

(** The environment-variable defaults, the three production URLs and
    API version 3, as the specification lists them. *)
Definition spec_defaults (getenv : string -> string) : Config.t :=
  {| Config.ClientId := getenv "MOBINGI_CLIENT_ID";
     Config.ClientSecret := getenv "MOBINGI_CLIENT_SECRET";
     Config.GrantType := "";
     Config.Scope := "";
     Config.Username := getenv "MOBINGI_USERNAME";
     Config.Password := getenv "MOBINGI_PASSWORD";
     Config.AccessToken := "";
     Config.ApiVersion := 3;
     Config.BaseApiUrl := "https://api.mobingi.com";
     Config.BaseRegistryUrl := "https://registry.mobingi.com";
     Config.Sesha3Url := "https://sesha3.mobingi.com";
     Config.UseForm := false;
     Config.HttpClientConfig := None |}.

(** The overlay of one override object, field by field. *)
Definition spec_overlay (d o : Config.t) : Config.t :=
  {| Config.ClientId := pick_string (Config.ClientId d) (Config.ClientId o);
     Config.ClientSecret :=
       pick_string (Config.ClientSecret d) (Config.ClientSecret o);
     Config.GrantType := pick_string (Config.GrantType d) (Config.GrantType o);
     Config.Scope := pick_string (Config.Scope d) (Config.Scope o);
     Config.Username := pick_string (Config.Username d) (Config.Username o);
     Config.Password := pick_string (Config.Password d) (Config.Password o);
     Config.AccessToken :=
       pick_string (Config.AccessToken d) (Config.AccessToken o);
     Config.ApiVersion := pick_int (Config.ApiVersion d) (Config.ApiVersion o);
     Config.BaseApiUrl :=
       pick_string (Config.BaseApiUrl d) (Config.BaseApiUrl o);
     Config.BaseRegistryUrl :=
       pick_string (Config.BaseRegistryUrl d) (Config.BaseRegistryUrl o);
     Config.Sesha3Url := pick_string (Config.Sesha3Url d) (Config.Sesha3Url o);
     Config.UseForm := pick_bool (Config.UseForm d) (Config.UseForm o);
     Config.HttpClientConfig :=
       pick_ptr (Config.HttpClientConfig d) (Config.HttpClientConfig o) |}.

(** Resolution as the specification words it: the defaults, overlaid
    with the first override when there is one and it is not nil. *)
Definition spec_resolve (getenv : string -> string)
    (cnf : list (option Config.t)) : Config.t :=
  match head cnf with
  | Some (Some o) => spec_overlay (spec_defaults getenv) o
  | _ => spec_defaults getenv
  end.

(** The specification's reading of "the string representation" of a
    decoded JSON value: the text Go prints for the value by default (the
    [%v] verb): a string is itself, a boolean is [true] or [false], a
    number is its shortest decimal form, nil is [<nil>], and slices and
    maps are bracketed lists of the same. *)
Fixpoint spec_string_of (L : GoLib) (v : JSON) : string :=
  match v with
  | JNull => "<nil>"
  | JBool b => fmt_bool b
  | JNumber f => fmt_float_v L f
  | JString s => s
  | JArray l =>
      "[" +:+
      (fix elems (l : list JSON) : string :=
         match l with
         | [] => ""
         | [x] => spec_string_of L x
         | x :: r => spec_string_of L x +:+ " " +:+ elems r
         end) l +:+ "]"
  | JObject m =>
      "map[" +:+
      (fix entries (m : list (string * JSON)) : string :=
         match m with
         | [] => ""
         | [(k, x)] => k +:+ ":" +:+ spec_string_of L x
         | (k, x) :: r =>
             k +:+ ":" +:+ spec_string_of L x +:+ " " +:+ entries r
         end) m +:+ "]"
  end.

(** [strings.Join]: the elements of [l] separated by [sep]. *)
Fixpoint join (sep : string) (l : list string) : string :=
  match l with
  | [] => ""
  | [x] => x
  | x :: r => x +:+ sep +:+ join sep r
  end.

(** A decoded value that holds no boolean and no number at any depth. *)
Fixpoint plain (v : JSON) : bool :=
  match v with
  | JNull => true
  | JString _ => true
  | JBool _ => false
  | JNumber _ => false
  | JArray l =>
      (fix all (l : list JSON) : bool :=
         match l with
         | [] => true
         | x :: r => plain x && all r
         end) l
  | JObject m =>
      (fix all (m : list (string * JSON)) : bool :=
         match m with
         | [] => true
         | (_, x) :: r => plain x && all r
         end) m
  end.

(** The 2xx range. *)
Definition is_2xx (code : Z) : Prop := 200 <= code <= 299.

(** The endpoint string as a function of the stored configuration. *)
Definition endpointOf (c : Config.t) : string :=
  if Config.ApiVersion c >? -1
  then Config.BaseApiUrl c +:+ "/v" +:+ fmt_d (Config.ApiVersion c)
  else Config.BaseApiUrl c.

(** The state in which [exchange] runs: the session's [Config] object
    holds its scope-defaulted value, nothing else has changed. *)
Definition scoped (p : loc) (c : Config.t) (st : state) : state :=
  mkState (<[p := defaultScope c]> (heap st)) (trace st).

(** The state right after [New] has stored the resolved configuration. *)
Definition allocated (W : World) (cnf : list (option Config.t)) (st : state)
  : state :=
  mkState (heap st ++ [resolveConfig W cnf])%list (trace st).

(** The URL of the token endpoint (line 123). *)
Definition accessTokenUrlOf (c : Config.t) : string :=
  endpointOf c +:+ "/access_token".

(** The request the JSON path hands to the client (lines 197-210) for a
    payload: a POST to the token endpoint whose only header is the
    content type and whose body is the marshalled payload. *)
Definition tokenRequest (L : GoLib) (c : Config.t) (p : authPayload.t)
  : Request :=
  mkRequest "POST" (accessTokenUrlOf c)
            {[ "Content-Type" := ["application/json"] ]}
            (Some (json_Marshal L p)).

(** What [getAccessToken] returns for each outcome of lines 128-217. *)
Definition resultOf (L : GoLib) (r : Response + error)
  : string * option error :=
  match r with
  | inr err => ("", Some err)
  | inl resp => readToken L resp
  end.

(** The grant type the JSON path puts in its payload: an explicit
    "password" or "client_credentials" is kept; any other value is
    replaced by a guess from the presence of a user name. *)
Definition grantOf (c : Config.t) : string :=
  if bool_decide (Config.GrantType c = "password") then "password"
  else if bool_decide (Config.GrantType c = "client_credentials")
  then "client_credentials"
  else if bool_decide (Config.Username c ≠ "") then "password"
  else "client_credentials".

(* ===================================================================== *)
(** ** Concrete instances used to exercise the theorems *)

Module Demo.
(** Three response bodies: an object whose [access_token] is a string,
    one whose [access_token] is the boolean [true], and the empty
    object. *)
Definition body_string : string :=
  "{" +:+ dquote +:+ "access_token" +:+ dquote +:+ ":"
      +:+ dquote +:+ "X" +:+ dquote +:+ "}".
Definition body_bool : string :=
  "{" +:+ dquote +:+ "access_token" +:+ dquote +:+ ":true}".
Definition body_empty : string := "{}".

(** A library instance: [url.Parse] rejects the lone colon; the JSON
    decoder knows the three bodies above; strings without special
    characters are quoted as they are. *)
Definition lib : GoLib :=
  mkGoLib
    (fun u => if bool_decide (u = ":")
              then Some (lib_error "missing protocol scheme") else None)
    (fun s => dquote +:+ s +:+ dquote)
    (fun s => dquote +:+ s +:+ dquote)
    (fun b => if bool_decide (b = body_string)
              then inl {[ "access_token" := JString "X" ]}
              else if bool_decide (b = body_bool)
              then inl {[ "access_token" := JBool true ]}
              else if bool_decide (b = body_empty) then inl ∅
              else inr (lib_error "invalid character"))
    (fun _ => "0").

(** A world with an empty environment whose token endpoint always
    answers with the given response. *)
Definition world (resp : Response) : World :=
  mkWorld (fun _ => "") (fun _ _ => inl resp) (fun _ _ => inl resp).

(** A world whose transport always fails. *)
Definition offline : World :=
  mkWorld (fun _ => "")
          (fun _ _ => inr (lib_error "connection refused"))
          (fun _ _ => inr (lib_error "connection refused")).

Definition ok_string : Response := mkResponse 200 "200 OK" body_string.
Definition ok_bool : Response := mkResponse 200 "200 OK" body_bool.
Definition ok_empty : Response := mkResponse 201 "201 Created" body_empty.
Definition not_found : Response := mkResponse 404 "404 Not Found" "".

Definition st0 : state := mkState [] [].

(** Overrides. *)
Definition preset : Config.t := Config.set_AccessToken "T" Config.zero.
Definition user_only : Config.t := Config.set_Username "u" Config.zero.
Definition explicit_password : Config.t :=
  Config.set_GrantType "password" (Config.set_Username "u" Config.zero).
Definition form_user_only : Config.t :=
  Config.set_UseForm true (Config.set_Username "u" Config.zero).

(** A stored configuration and a session pointing at it. *)
Definition cfg3 : Config.t := spec_defaults (fun _ => "").
Definition cfg_unversioned : Config.t := Config.set_ApiVersion (-1) cfg3.
Definition st1 : state := mkState [cfg3; cfg_unversioned] [].
Definition s1 : Session.t := Session.mk 0%nat "tok".
Definition s2 : Session.t := Session.mk 1%nat "tok".

(** A library instance whose [url.Parse] rejects every URL. *)
Definition lib_bad_url : GoLib :=
  mkGoLib (fun _ => Some (lib_error "invalid URL"))
          (strconv_Quote lib) (json_encodeString lib)
          (json_Unmarshal lib) (fmt_float_v lib).

(** A 2xx response whose body is not JSON, and one whose token is the
    empty string. *)
Definition ok_garbage : Response := mkResponse 200 "200 OK" "<html>".

(** More overrides. *)
Definition local_api : Config.t :=
  Config.set_BaseApiUrl "http://localhost" Config.zero.
Definition form_password : Config.t :=
  Config.set_UseForm true
    (Config.set_GrantType "password"
       (Config.set_Username "u" (Config.set_Password "p" Config.zero))).
Definition cc_with_user : Config.t :=
  Config.set_GrantType "client_credentials"
    (Config.set_Username "u" (Config.set_Password "p" Config.zero)).
Definition odd_grant : Config.t :=
  Config.set_GrantType "refresh_token" Config.zero.

(** A world whose environment names a user and a password. *)
Definition with_env_user : World :=
  mkWorld (fun k => if bool_decide (k = "MOBINGI_USERNAME") then "env-user"
                    else if bool_decide (k = "MOBINGI_PASSWORD") then "env-pw"
                    else "")
          (http_PostForm (world ok_string)) (client_Do (world ok_string)).
End Demo.

(* ===================================================================== *)
(** * Properties *)

(** ** Monad and store lemmas *)

Lemma bind_Ret {A B} (m : M A) (k : A -> M B) st a st' :
  m st = Ret a st' -> bind m k st = k a st'.
Proof. intros H. unfold bind. now rewrite H. Qed.

Lemma load_Some p st c : heap st !! p = Some c -> load p st = Ret c st.
Proof. intros H. unfold load. now rewrite H. Qed.

Lemma store_Some p st c c' :
  heap st !! p = Some c ->
  store p c' st = Ret tt (mkState (<[p := c']> (heap st)) (trace st)).
Proof. intros H. unfold store. now rewrite H. Qed.

Lemma ApiEndpoint_run s st c :
  heap st !! Session.Config s = Some c ->
  ApiEndpoint s st = Ret (endpointOf c) st.
Proof.
  intros H. unfold ApiEndpoint, endpointOf.
  rewrite (bind_Ret _ _ _ _ _ (load_Some _ _ _ H)).
  now destruct (Config.ApiVersion c >? -1).
Qed.

(** ** Strings *)

Lemma append_nil_r (s : string) : s +:+ "" = s.
Proof. induction s as [|a s IH]; simpl; [easy | now rewrite IH]. Qed.

Lemma contains_refl s : contains s s.
Proof. exists "", "". simpl. now rewrite append_nil_r. Qed.

Lemma append_assoc (a b c : string) : (a +:+ b) +:+ c = a +:+ (b +:+ c).
Proof. induction a as [|x a IH]; simpl; [easy | now rewrite IH]. Qed.

Lemma contains_prefix p s sub : contains s sub -> contains (p +:+ s) sub.
Proof.
  intros (pre & post & ->). exists (p +:+ pre), post.
  now rewrite append_assoc.
Qed.

(** A wrapped error still shows the message of its cause. *)
Lemma contains_Wrap e lbl sub :
  contains (Error e) sub -> contains (Error (errors_Wrap e lbl)) sub.
Proof.
  intros H. change (Error (errors_Wrap e lbl)) with (lbl +:+ ": " +:+ Error e).
  now apply contains_prefix, contains_prefix.
Qed.

(** ** [ApiEndpoint] *)

(** C3.  [ApiEndpoint] returns the base URL followed by "/v" and the
    decimal API version when the version is at least 0, and the base URL
    alone when it is negative.  With version 3 and base
    "https://api.mobingi.com" the result is exactly
    "https://api.mobingi.com/v3"; with version -1 it is the base URL. *)
Theorem ApiEndpoint_spec (s : Session.t) (st : state) (c : Config.t) :
  heap st !! Session.Config s = Some c ->
  (0 <= Config.ApiVersion c ->
   ApiEndpoint s st =
   Ret (Config.BaseApiUrl c +:+ "/v" +:+ fmt_d (Config.ApiVersion c)) st) /\
  (Config.ApiVersion c < 0 -> ApiEndpoint s st = Ret (Config.BaseApiUrl c) st) /\
  (Config.ApiVersion c = 3 ->
   Config.BaseApiUrl c = "https://api.mobingi.com" ->
   ApiEndpoint s st = Ret "https://api.mobingi.com/v3" st) /\
  (Config.ApiVersion c = -1 -> ApiEndpoint s st = Ret (Config.BaseApiUrl c) st).
Proof.
  intros Hc. rewrite (ApiEndpoint_run _ _ _ Hc). unfold endpointOf.
  repeat split.
  - intros Hv. destruct (Z.gtb_spec (Config.ApiVersion c) (-1)); [easy | lia].
  - intros Hv. destruct (Z.gtb_spec (Config.ApiVersion c) (-1)); [lia | easy].
  - intros -> ->. reflexivity.
  - intros ->. reflexivity.
Qed.

Lemma ApiEndpoint_spec_witness :
  heap Demo.st1 !! Session.Config Demo.s1 = Some Demo.cfg3 /\
  ApiEndpoint Demo.s1 Demo.st1 = Ret "https://api.mobingi.com/v3" Demo.st1 /\
  heap Demo.st1 !! Session.Config Demo.s2 = Some Demo.cfg_unversioned /\
  ApiEndpoint Demo.s2 Demo.st1 = Ret "https://api.mobingi.com" Demo.st1.
Proof.
  split; [reflexivity |]. split.
  - apply (ApiEndpoint_spec Demo.s1 Demo.st1 Demo.cfg3); reflexivity.
  - split; [reflexivity |].
    apply (ApiEndpoint_spec Demo.s2 Demo.st1 Demo.cfg_unversioned);
      reflexivity.
Defined.

(** ** [SimpleAuthRequest] *)

Lemma http_NewRequest_fails (L : GoLib) (m u : string) (body : option string) :
  (exists err, http_NewRequest L m u body = inr err) <->
  validMethod (if bool_decide (m = "") then "GET" else m) = false
  \/ is_Some (url_Parse L u).
Proof.
  unfold http_NewRequest.
  destruct (validMethod _) eqn:Hm; simpl.
  - destruct (url_Parse L u) as [e|] eqn:Hu; split.
    + intros _. right. eauto.
    + intros _. eauto.
    + intros [e He]. discriminate.
    + intros [H | [e He]]; discriminate.
  - split; [auto | eauto].
Qed.

(** C8.  [SimpleAuthRequest] returns nil exactly when [http.NewRequest]
    fails, which is when the method is not a valid token or the URL does
    not parse; the error itself is dropped.  Otherwise the result is the
    request built by [http.NewRequest] with the header
    "Authorization: Bearer <AccessToken>" added. *)
Theorem SimpleAuthRequest_spec (L : GoLib) (s : Session.t) (m u : string)
    (body : option string) :
  (SimpleAuthRequest L s m u body = None <->
   exists err, http_NewRequest L m u body = inr err) /\
  (SimpleAuthRequest L s m u body = None <->
   validMethod (if bool_decide (m = "") then "GET" else m) = false
   \/ is_Some (url_Parse L u)) /\
  (forall req, http_NewRequest L m u body = inl req ->
     exists r, SimpleAuthRequest L s m u body = Some r /\
       ReqHeader r !! "Authorization"
         = Some ["Bearer " +:+ Session.AccessToken s] /\
       Method r = Method req /\ URL r = URL req /\ ReqBody r = ReqBody req).
Proof.
  assert (Hnil : SimpleAuthRequest L s m u body = None <->
                 exists err, http_NewRequest L m u body = inr err).
  { unfold SimpleAuthRequest.
    destruct (http_NewRequest L m u body) as [req | err]; split;
      try discriminate; eauto.
    intros [e He]. discriminate. }
  split; [exact Hnil |]. split.
  - rewrite Hnil. apply http_NewRequest_fails.
  - intros req Hreq. unfold SimpleAuthRequest. rewrite Hreq.
    eexists. split; [reflexivity |].
    unfold http_NewRequest in Hreq.
    destruct (negb _); [discriminate |].
    destruct (url_Parse L u); [discriminate |].
    injection Hreq as <-. simpl. unfold map_Add.
    rewrite lookup_empty. simpl. rewrite lookup_insert_eq. auto.
Qed.

Lemma SimpleAuthRequest_spec_witness :
  SimpleAuthRequest Demo.lib Demo.s1 "G T" "https://api.mobingi.com" None = None
  /\ SimpleAuthRequest Demo.lib Demo.s1 "GET" ":" None = None
  /\ exists r,
       SimpleAuthRequest Demo.lib Demo.s1 "GET" "https://api.mobingi.com" None
       = Some r
       /\ ReqHeader r !! "Authorization" = Some ["Bearer tok"].
Proof.
  split; [| split].
  - apply (SimpleAuthRequest_spec Demo.lib Demo.s1 "G T"
             "https://api.mobingi.com" None).
    left. reflexivity.
  - apply (SimpleAuthRequest_spec Demo.lib Demo.s1 "GET" ":" None).
    right. eexists. reflexivity.
  - destruct (SimpleAuthRequest_spec Demo.lib Demo.s1 "GET"
                "https://api.mobingi.com" None) as (_ & _ & H).
    destruct (H _ eq_refl) as (r & Hr & Hh & _).
    exists r. split; [exact Hr | exact Hh].
Defined.

(** ** Configuration resolution *)

Lemma Config_ext (a b : Config.t) :
  Config.ClientId a = Config.ClientId b ->
  Config.ClientSecret a = Config.ClientSecret b ->
  Config.GrantType a = Config.GrantType b ->
  Config.Scope a = Config.Scope b ->
  Config.Username a = Config.Username b ->
  Config.Password a = Config.Password b ->
  Config.AccessToken a = Config.AccessToken b ->
  Config.ApiVersion a = Config.ApiVersion b ->
  Config.BaseApiUrl a = Config.BaseApiUrl b ->
  Config.BaseRegistryUrl a = Config.BaseRegistryUrl b ->
  Config.Sesha3Url a = Config.Sesha3Url b ->
  Config.UseForm a = Config.UseForm b ->
  Config.HttpClientConfig a = Config.HttpClientConfig b ->
  a = b.
Proof. destruct a, b; simpl; intros; subst; reflexivity. Qed.

(** A conditional assignment leaves alone every field its assignment
    leaves alone. *)
Lemma proj_when_frame {B} (proj : Config.t -> B) cond assign c :
  (forall x, proj (assign x) = proj x) -> proj (when cond assign c) = proj c.
Proof. intros H. unfold when. destruct cond; auto. Qed.

Ltac frame_fields :=
  repeat (rewrite proj_when_frame by (intros; reflexivity)).

(** One field of the overlay: skip the assignments to other fields, then
    split on the condition of the one assignment to this field. *)
Ltac overlay_field :=
  frame_fields; unfold when at 1;
  match goal with
  | |- _ (if ?b then _ else _) = _ =>
      let Hcond := fresh "Hcond" in
      destruct b eqn:Hcond;
      simpl; frame_fields;
      unfold pick_string, pick_int, pick_bool, pick_ptr;
      try (apply bool_decide_eq_true in Hcond);
      try (apply bool_decide_eq_false in Hcond);
      try case_bool_decide; try congruence; try done
  end.

Lemma overlay_spec_overlay (d o : Config.t) rest :
  overlay d (Some o :: rest) = spec_overlay d o.
Proof.
  unfold overlay. cbv zeta. apply Config_ext; unfold spec_overlay;
    cbn [Config.ClientId Config.ClientSecret Config.GrantType Config.Scope
         Config.Username Config.Password Config.AccessToken Config.ApiVersion
         Config.BaseApiUrl Config.BaseRegistryUrl Config.Sesha3Url
         Config.UseForm Config.HttpClientConfig].
  1-11: overlay_field.
  - overlay_field.
  - overlay_field; destruct (Config.HttpClientConfig o); naive_solver.
Qed.

Lemma resolveConfig_spec_resolve (W : World) (cnf : list (option Config.t)) :
  resolveConfig W cnf = spec_resolve (os_Getenv W) cnf.
Proof.
  unfold resolveConfig, spec_resolve.
  destruct cnf as [| [o |] rest]; simpl head.
  - reflexivity.
  - apply overlay_spec_overlay.
  - reflexivity.
Qed.

(** ** Running [getAccessToken] *)

Lemma defaultScope_idem (c : Config.t) :
  Config.Scope c ≠ "" -> defaultScope c = c.
Proof. intros H. unfold defaultScope. now case_bool_decide. Qed.

Lemma state_eta (st : state) : mkState (heap st) (trace st) = st.
Proof. now destruct st. Qed.

(** The first part of [getAccessToken] stores the scope-defaulted
    configuration and runs [exchange] on it, at the endpoint computed
    from the configuration. *)
Lemma requestToken_run (L : GoLib) (W : World) (s : Session.t) st c :
  heap st !! Session.Config s = Some c ->
  requestToken L W s st =
  exchange L W (endpointOf c +:+ "/access_token") (defaultScope c)
           (scoped (Session.Config s) c st).
Proof.
  intros Hc. unfold requestToken.
  rewrite (bind_Ret _ _ _ _ _ (ApiEndpoint_run _ _ _ Hc)).
  rewrite (bind_Ret _ _ _ _ _ (load_Some _ _ _ Hc)).
  pose proof (lookup_lt_Some _ _ _ Hc) as Hlt.
  unfold scoped, defaultScope. case_bool_decide as Hs.
  - rewrite (bind_Ret _ _ _ _ _ (store_Some _ _ _ _ Hc)).
    erewrite bind_Ret; [reflexivity |].
    apply load_Some. simpl. now apply list_lookup_insert_eq.
  - unfold ret at 1. unfold bind at 1.
    rewrite (bind_Ret _ _ _ _ _ (load_Some _ _ _ Hc)).
    rewrite list_insert_id by exact Hc. now rewrite state_eta.
Qed.

(** [exchange] never panics, leaves the store alone, and logs at most
    one network call. *)
Lemma exchange_total (L : GoLib) (W : World) url c st :
  exists r evs,
    exchange L W url c st = Ret r (mkState (heap st) (trace st ++ evs)%list)
    /\ (length evs <= 1)%nat.
Proof.
  unfold exchange. destruct (Config.UseForm c).
  - unfold http_PostForm_run.
    destruct (http_NewRequest L "POST" url None) as [r | e].
    + unfold bind, emit, ret.
      destruct (http_PostForm W url (buildForm c)); eauto.
    + exists (inr (errors_Wrap e "do failed")), [].
      unfold bind, ret. rewrite app_nil_r, state_eta. auto.
  - destruct (buildPayload c) as [p | e].
    + destruct (http_NewRequest L "POST" url _) as [r | e].
      * unfold bind, emit, ret. destruct (client_Do W _ _); eauto.
      * exists (inr (errors_Wrap e "new request failed")), [].
        unfold ret. rewrite app_nil_r, state_eta. auto.
    + exists (inr e), []. unfold ret. rewrite app_nil_r, state_eta. auto.
Qed.

(** On the JSON path the only call that can be logged is the POST of the
    marshalled payload, through the configured client. *)
Lemma exchange_json_trace (L : GoLib) (W : World) url c st r st' :
  Config.UseForm c = false ->
  exchange L W url c st = Ret r st' ->
  heap st' = heap st /\
  (trace st' = trace st \/
   exists p req,
     buildPayload c = inl p /\
     http_NewRequest L "POST" url (Some (json_Marshal L p)) = inl req /\
     trace st' =
       (trace st ++
        [EvDo (Config.HttpClientConfig c)
           (Request_Header_Add "Content-Type" "application/json" req)])%list).
Proof.
  intros Hf. unfold exchange. rewrite Hf.
  destruct (buildPayload c) as [p | e].
  - destruct (http_NewRequest L "POST" url _) as [req | e] eqn:Hreq.
    + unfold bind, emit, ret.
      destruct (client_Do W _ _); intros [= <- <-]; simpl;
        (split; [reflexivity | right; eauto]).
    + unfold ret. intros [= <- <-]. auto.
  - unfold ret. intros [= <- <-]. auto.
Qed.

(** [getAccessToken] always returns; afterwards the session's [Config]
    object holds the scope-defaulted value and the rest of the store is
    as before; a failure comes with the empty token; the trace only
    grows. *)
Lemma getAccessToken_total (L : GoLib) (W : World) (s : Session.t) st c :
  heap st !! Session.Config s = Some c ->
  exists tok err st',
    getAccessToken L W s st = Ret (tok, err) st' /\
    heap st' = <[Session.Config s := defaultScope c]> (heap st) /\
    (err ≠ None -> tok = "") /\
    exists evs, trace st' = (trace st ++ evs)%list /\ (length evs <= 1)%nat.
Proof.
  intros Hc. unfold getAccessToken.
  destruct (exchange_total L W (endpointOf c +:+ "/access_token")
              (defaultScope c) (scoped (Session.Config s) c st))
    as (r & evs & Hex & Hlen).
  rewrite <- (requestToken_run L W s st c Hc) in Hex.
  rewrite (bind_Ret _ _ _ _ _ Hex). unfold ret.
  destruct r as [resp | e].
  - destruct (readToken L resp) as [tok err] eqn:Hrt.
    exists tok, err. eexists. split; [reflexivity |]. simpl.
    split; [reflexivity |]. split; [| eauto].
    intros Herr. unfold readToken, parseToken in Hrt.
    destruct (negb _); [now inversion Hrt |].
    destruct (json_Unmarshal L _) as [m | e]; [| now inversion Hrt].
    destruct (m !! "access_token"); inversion Hrt; congruence.
  - exists "", (Some e). eexists. split; [reflexivity |]. simpl. eauto.
Qed.

(** ** Running [New] *)

Lemma alloc_lookup (st : state) (c : Config.t) :
  (heap st ++ [c])%list !! length (heap st) = Some c.
Proof. now apply list_lookup_middle. Qed.

Lemma New_preset (L : GoLib) (W : World) cnf st :
  Config.AccessToken (resolveConfig W cnf) ≠ "" ->
  New L W cnf st =
  Ret (Some (Session.mk (length (heap st))
               (Config.AccessToken (resolveConfig W cnf))), None)
      (allocated W cnf st).
Proof.
  intros Ht. unfold New, bind, alloc, load. simpl.
  rewrite alloc_lookup. now case_bool_decide.
Qed.

Lemma New_exchange (L : GoLib) (W : World) cnf st :
  Config.AccessToken (resolveConfig W cnf) = "" ->
  New L W cnf st =
  let s := Session.mk (length (heap st)) "" in
  match getAccessToken L W s (allocated W cnf st) with
  | Ret (_, Some err) st' =>
      Ret (Some s, Some (errors_Wrap err "get access token failed")) st'
  | Ret (token, None) st' =>
      Ret (Some (Session.mk (length (heap st)) token), None) st'
  | Panic => Panic
  end.
Proof.
  intros Ht. unfold New, bind, alloc, load. simpl.
  rewrite alloc_lookup. case_bool_decide; [congruence |].
  unfold allocated.
  destruct (getAccessToken L W _ _) as [[tok [e |]] st' |]; reflexivity.
Qed.

(** C4.  [New] resolves its configuration by starting from the four
    environment variables, the three production base URLs and API
    version 3, and overlaying the fields of the first override that are
    non-empty strings, non-zero integers, true booleans or non-nil
    pointers; overrides after the first are ignored (and so is a nil
    first override).  The session [New] returns points to the object
    holding that configuration, up to the scope default that the
    credential exchange writes into it. *)
Theorem New_resolves_config (W : World) (cnf : list (option Config.t)) :
  resolveConfig W cnf = spec_resolve (os_Getenv W) cnf /\
  (forall o rest, resolveConfig W (o :: rest) = resolveConfig W [o]) /\
  (forall L st, exists s err st',
      New L W cnf st = Ret (Some s, err) st' /\
      Session.Config s = length (heap st) /\
      (heap st' = (heap st ++ [spec_resolve (os_Getenv W) cnf])%list \/
       heap st' =
         (heap st ++ [defaultScope (spec_resolve (os_Getenv W) cnf)])%list)).
Proof.
  split; [apply resolveConfig_spec_resolve |]. split.
  - intros o rest. rewrite !resolveConfig_spec_resolve. reflexivity.
  - intros L st. rewrite <- resolveConfig_spec_resolve.
    destruct (decide (Config.AccessToken (resolveConfig W cnf) = "")) as [Ht|Ht].
    + rewrite (New_exchange L W cnf st Ht). cbv zeta.
      destruct (getAccessToken_total L W (Session.mk (length (heap st)) "")
                  (allocated W cnf st) (resolveConfig W cnf))
        as (tok & err & st' & Hrun & Hheap & _).
      { apply alloc_lookup. }
      rewrite Hrun.
      assert (Hh : heap st' =
                   (heap st ++ [defaultScope (resolveConfig W cnf)])%list).
      { rewrite Hheap. simpl.
        replace (length (heap st)) with (length (heap st) + 0)%nat by lia.
        now rewrite insert_app_r. }
      destruct err as [e |]; eexists _, _, _;
        (split; [reflexivity | split; [reflexivity | now right]]).
    + rewrite (New_preset L W cnf st Ht).
      eexists _, _, _. split; [reflexivity |]. split; [reflexivity |].
      now left.
Qed.

(** C2.  When the resolved configuration carries a non-empty access
    token T, [New] returns a session whose token is T and a nil error,
    and the trace of network calls is unchanged. *)
Theorem New_preset_token (L : GoLib) (W : World)
    (cnf : list (option Config.t)) (st : state) (T : string) :
  Config.AccessToken (resolveConfig W cnf) = T ->
  T ≠ "" ->
  exists s st',
    New L W cnf st = Ret (Some s, None) st' /\
    Session.AccessToken s = T /\
    trace st' = trace st /\
    heap st' !! Session.Config s = Some (resolveConfig W cnf).
Proof.
  intros <- Ht. rewrite (New_preset L W cnf st Ht).
  eexists _, _. split; [reflexivity |]. simpl.
  split; [reflexivity |]. split; [reflexivity |]. apply alloc_lookup.
Qed.

Lemma New_preset_token_witness :
  exists s st',
    New Demo.lib Demo.offline [Some Demo.preset] Demo.st0
    = Ret (Some s, None) st' /\
    Session.AccessToken s = "T" /\
    trace st' = trace Demo.st0 /\
    heap st' !! Session.Config s
    = Some (resolveConfig Demo.offline [Some Demo.preset]).
Proof.
  apply (New_preset_token Demo.lib Demo.offline [Some Demo.preset] Demo.st0 "T").
  - reflexivity.
  - discriminate.
Defined.

(** C5.  When the credential exchange fails, whatever the failure, [New]
    returns a non-nil session together with a non-nil error that wraps
    the failure under the label "get access token failed".  The
    session's token is empty and its [Config] is the object [New] filled
    with the resolved configuration (in which the exchange has defaulted
    an empty scope, and nothing else). *)
Theorem New_exchange_failure (L : GoLib) (W : World)
    (cnf : list (option Config.t)) (st st' : state) (tok : string)
    (cause : error) :
  Config.AccessToken (resolveConfig W cnf) = "" ->
  getAccessToken L W (Session.mk (length (heap st)) "") (allocated W cnf st)
    = Ret (tok, Some cause) st' ->
  exists s err,
    New L W cnf st = Ret (Some s, Some err) st' /\
    Session.AccessToken s = "" /\
    Session.Config s = length (heap st) /\
    heap (allocated W cnf st) !! Session.Config s = Some (resolveConfig W cnf) /\
    heap st' !! Session.Config s = Some (defaultScope (resolveConfig W cnf)) /\
    defaultScope (resolveConfig W cnf)
      = Config.set_Scope (Config.Scope (defaultScope (resolveConfig W cnf)))
          (resolveConfig W cnf) /\
    err = errors_Wrap cause "get access token failed" /\
    Error err = "get access token failed: " +:+ Error cause.
Proof.
  intros Ht Hrun. rewrite (New_exchange L W cnf st Ht). cbv zeta.
  rewrite Hrun. eexists _, _. split; [reflexivity |]. simpl.
  split; [reflexivity |]. split; [reflexivity |].
  split; [apply alloc_lookup |]. split.
  - destruct (getAccessToken_total L W (Session.mk (length (heap st)) "")
                (allocated W cnf st) (resolveConfig W cnf))
      as (tok' & err' & st'' & Hrun' & Hheap & _).
    { apply alloc_lookup. }
    rewrite Hrun in Hrun'. injection Hrun' as _ _ <-.
    rewrite Hheap. simpl. apply list_lookup_insert_eq.
    rewrite length_app. simpl. lia.
  - split; [| split; reflexivity].
    unfold defaultScope. case_bool_decide; [reflexivity |].
    now destruct (resolveConfig W cnf).
Qed.

Lemma New_exchange_failure_witness :
  exists s err,
    New Demo.lib (Demo.world Demo.not_found) [] Demo.st0
    = Ret (Some s, Some err)
          (mkState [defaultScope (resolveConfig (Demo.world Demo.not_found) [])]
             [EvDo None
                (mkRequest "POST" "https://api.mobingi.com/v3/access_token"
                   {[ "Content-Type" := ["application/json"] ]}
                   (Some (json_Marshal Demo.lib
                            (authPayload.mk "" "" "client_credentials" ""
                               None None))))]) /\
    Session.AccessToken s = "" /\
    Error err = "get access token failed: 404 Not Found".
Proof.
  destruct (New_exchange_failure Demo.lib (Demo.world Demo.not_found) []
              Demo.st0
              (mkState
                 [defaultScope (resolveConfig (Demo.world Demo.not_found) [])]
                 [EvDo None
                    (mkRequest "POST" "https://api.mobingi.com/v3/access_token"
                       {[ "Content-Type" := ["application/json"] ]}
                       (Some (json_Marshal Demo.lib
                                (authPayload.mk "" "" "client_credentials" ""
                                   None None))))])
              "" (errors_New "404 Not Found"))
    as (s & err & Hnew & Htok & _ & _ & _ & _ & _ & Herr).
  - reflexivity.
  - vm_compute. reflexivity.
  - exists s, err. split; [exact Hnew |]. split; [exact Htok | exact Herr].
Defined.

(** ** The scope default *)

(** C9.  [getAccessToken] writes through the session's [Config] pointer:
    when the stored scope is empty, the object holds scope "openid"
    afterwards; every other field of the object, and every other object
    of the store, is as before (and a non-empty scope is left alone). *)
Theorem getAccessToken_defaults_scope (L : GoLib) (W : World)
    (s : Session.t) (st : state) (c : Config.t) :
  heap st !! Session.Config s = Some c ->
  exists r st' c',
    getAccessToken L W s st = Ret r st' /\
    heap st' = <[Session.Config s := c']> (heap st) /\
    heap st' !! Session.Config s = Some c' /\
    (Config.Scope c = "" -> Config.Scope c' = "openid") /\
    (Config.Scope c ≠ "" -> c' = c) /\
    c' = Config.set_Scope (Config.Scope c') c.
Proof.
  intros Hc.
  destruct (getAccessToken_total L W s st c Hc)
    as (tok & err & st' & Hrun & Hheap & _).
  exists (tok, err), st', (defaultScope c).
  split; [exact Hrun |]. split; [exact Hheap |]. split.
  - rewrite Hheap. apply list_lookup_insert_eq. eapply lookup_lt_Some, Hc.
  - unfold defaultScope. case_bool_decide as Hs.
    + split; [reflexivity |]. split; [congruence | reflexivity].
    + split; [congruence |]. split; [reflexivity |]. now destruct c.
Qed.

Lemma getAccessToken_defaults_scope_witness :
  heap Demo.st1 !! Session.Config Demo.s1 = Some Demo.cfg3 /\
  Config.Scope Demo.cfg3 = "" /\
  exists r st',
    getAccessToken Demo.lib Demo.offline Demo.s1 Demo.st1 = Ret r st' /\
    heap st' = [Config.set_Scope "openid" Demo.cfg3; Demo.cfg_unversioned].
Proof.
  split; [reflexivity |]. split; [reflexivity |].
  destruct (getAccessToken_defaults_scope Demo.lib Demo.offline Demo.s1
              Demo.st1 Demo.cfg3 eq_refl)
    as (r & st' & c' & Hrun & Hheap & _ & Hs & _ & Hc').
  exists r, st'. split; [exact Hrun |].
  rewrite Hheap, Hc', (Hs eq_refl). reflexivity.
Defined.

(** ** The status check *)

Lemma quot_100_is_2 (code : Z) : Z.quot code 100 = 2 <-> is_2xx code.
Proof. unfold is_2xx. Z.to_euclidean_division_equations. lia. Qed.

Lemma readToken_not_2xx (L : GoLib) (resp : Response) :
  ~ is_2xx (StatusCode resp) ->
  readToken L resp = ("", Some (errors_New (Status resp))).
Proof.
  intros H. unfold readToken.
  destruct (Z.eqb_spec (Z.quot (StatusCode resp) 100) 2) as [E | E]; simpl.
  - now apply quot_100_is_2 in E.
  - reflexivity.
Qed.

Lemma readToken_2xx (L : GoLib) (resp : Response) :
  is_2xx (StatusCode resp) ->
  readToken L resp = parseToken L (RespBody resp).
Proof.
  intros H. unfold readToken. apply quot_100_is_2 in H.
  rewrite H. reflexivity.
Qed.

(** What [requestToken] receives on each path, in terms of the world. *)
Lemma requestToken_form (L : GoLib) (W : World) (s : Session.t) st c :
  heap st !! Session.Config s = Some c ->
  Config.UseForm c = true ->
  url_Parse L (endpointOf c +:+ "/access_token") = None ->
  requestToken L W s st =
  Ret (match http_PostForm W (endpointOf c +:+ "/access_token")
               (buildForm (defaultScope c)) with
       | inl resp => inl resp
       | inr err => inr (errors_Wrap err "do failed")
       end)
      (mkState (<[Session.Config s := defaultScope c]> (heap st))
         (trace st ++ [EvPostForm (endpointOf c +:+ "/access_token")
                         (buildForm (defaultScope c))])%list).
Proof.
  intros Hc Hf Hu. rewrite (requestToken_run L W s st c Hc). unfold exchange.
  replace (Config.UseForm (defaultScope c)) with true
    by (unfold defaultScope; now case_bool_decide).
  unfold http_PostForm_run.
  change (http_NewRequest L "POST" (endpointOf c +:+ "/access_token") None)
    with (match url_Parse L (endpointOf c +:+ "/access_token") with
          | Some err => inr err
          | None => inl (mkRequest "POST" (endpointOf c +:+ "/access_token")
                           ∅ None)
          end).
  rewrite Hu. unfold bind, emit, ret, scoped. simpl.
  now destruct (http_PostForm W _ _).
Qed.

(** On the form path an unparsable token URL stops [http.PostForm]
    before anything is sent. *)
Lemma requestToken_form_bad_url (L : GoLib) (W : World) (s : Session.t)
    st c e :
  heap st !! Session.Config s = Some c ->
  Config.UseForm c = true ->
  url_Parse L (endpointOf c +:+ "/access_token") = Some e ->
  requestToken L W s st =
  Ret (inr (errors_Wrap e "do failed")) (scoped (Session.Config s) c st).
Proof.
  intros Hc Hf Hu. rewrite (requestToken_run L W s st c Hc). unfold exchange.
  replace (Config.UseForm (defaultScope c)) with true
    by (unfold defaultScope; now case_bool_decide).
  unfold http_PostForm_run.
  change (http_NewRequest L "POST" (endpointOf c +:+ "/access_token") None)
    with (match url_Parse L (endpointOf c +:+ "/access_token") with
          | Some err => inr err
          | None => inl (mkRequest "POST" (endpointOf c +:+ "/access_token")
                           ∅ None)
          end).
  rewrite Hu. reflexivity.
Qed.

Lemma requestToken_json (L : GoLib) (W : World) (s : Session.t) st c p req :
  heap st !! Session.Config s = Some c ->
  Config.UseForm c = false ->
  buildPayload (defaultScope c) = inl p ->
  http_NewRequest L "POST" (endpointOf c +:+ "/access_token")
                  (Some (json_Marshal L p)) = inl req ->
  let r := Request_Header_Add "Content-Type" "application/json" req in
  let cfg := Config.HttpClientConfig c in
  requestToken L W s st =
  Ret (match client_Do W cfg r with
       | inl resp => inl resp
       | inr err => inr (errors_Wrap err "do failed")
       end)
      (mkState (<[Session.Config s := defaultScope c]> (heap st))
         (trace st ++ [EvDo cfg r])%list).
Proof.
  intros Hc Hf Hp Hreq. cbv zeta.
  rewrite (requestToken_run L W s st c Hc). unfold exchange.
  replace (Config.UseForm (defaultScope c)) with false
    by (unfold defaultScope; now case_bool_decide).
  replace (Config.HttpClientConfig (defaultScope c))
    with (Config.HttpClientConfig c)
    by (unfold defaultScope; now case_bool_decide).
  rewrite Hp, Hreq. unfold bind, emit, ret, scoped. simpl.
  now destruct (client_Do W _ _).
Qed.

(** C6.  When the response to the credential exchange has a status code
    outside 200..299, [getAccessToken] fails with an error whose message
    is the response's status text (so the message, also once wrapped by
    [New], contains it).  When the code is within 200..299 the status
    check passes and the result is that of decoding the body. *)
Theorem getAccessToken_status_check (L : GoLib) (W : World)
    (s : Session.t) (st st' : state) (resp : Response) :
  requestToken L W s st = Ret (inl resp) st' ->
  (~ is_2xx (StatusCode resp) ->
   exists err,
     getAccessToken L W s st = Ret ("", Some err) st' /\
     Error err = Status resp /\
     contains (Error err) (Status resp) /\
     contains (Error (errors_Wrap err "get access token failed"))
              (Status resp)) /\
  (is_2xx (StatusCode resp) ->
   getAccessToken L W s st = Ret (parseToken L (RespBody resp)) st').
Proof.
  intros Hreq. unfold getAccessToken. rewrite (bind_Ret _ _ _ _ _ Hreq).
  unfold ret. split.
  - intros Hcode. rewrite (readToken_not_2xx L resp Hcode).
    exists (errors_New (Status resp)).
    split; [reflexivity |]. split; [reflexivity |].
    split; [apply contains_refl | apply contains_Wrap, contains_refl].
  - intros Hcode. now rewrite (readToken_2xx L resp Hcode).
Qed.

Lemma getAccessToken_status_check_witness :
  (exists st' err,
     requestToken Demo.lib (Demo.world Demo.not_found) Demo.s1 Demo.st1
     = Ret (inl Demo.not_found) st' /\
     ~ is_2xx 404 /\
     getAccessToken Demo.lib (Demo.world Demo.not_found) Demo.s1 Demo.st1
     = Ret ("", Some err) st' /\
     Error err = "404 Not Found") /\
  (exists st',
     requestToken Demo.lib (Demo.world Demo.ok_string) Demo.s1 Demo.st1
     = Ret (inl Demo.ok_string) st' /\
     is_2xx 200 /\
     getAccessToken Demo.lib (Demo.world Demo.ok_string) Demo.s1 Demo.st1
     = Ret ("X", None) st').
Proof.
  split.
  - eexists.
    assert (Hreq : requestToken Demo.lib (Demo.world Demo.not_found)
                     Demo.s1 Demo.st1
                   = Ret (inl Demo.not_found) _)
      by (vm_compute; reflexivity).
    assert (Hcode : ~ is_2xx (StatusCode Demo.not_found))
      by (unfold is_2xx; simpl; lia).
    destruct (getAccessToken_status_check _ _ _ _ _ _ Hreq) as [Hbad _].
    destruct (Hbad Hcode) as (err & Hrun & Hmsg & _).
    exists err. split; [exact Hreq |]. split; [exact Hcode |].
    split; [exact Hrun | exact Hmsg].
  - eexists.
    assert (Hreq : requestToken Demo.lib (Demo.world Demo.ok_string)
                     Demo.s1 Demo.st1
                   = Ret (inl Demo.ok_string) _)
      by (vm_compute; reflexivity).
    assert (Hcode : is_2xx (StatusCode Demo.ok_string))
      by (unfold is_2xx; simpl; lia).
    destruct (getAccessToken_status_check _ _ _ _ _ _ Hreq) as [_ Hok].
    split; [exact Hreq |]. split; [exact Hcode |].
    rewrite (Hok Hcode). reflexivity.
Defined.

(** ** Reading the token *)

Lemma getAccessToken_received (L : GoLib) (W : World) (s : Session.t)
    st st' resp :
  requestToken L W s st = Ret (inl resp) st' ->
  getAccessToken L W s st = Ret (readToken L resp) st'.
Proof.
  intros H. unfold getAccessToken. now rewrite (bind_Ret _ _ _ _ _ H).
Qed.

(** The run of [getAccessToken] ends in the state in which its request
    part ends. *)
Lemma getAccessToken_request (L : GoLib) (W : World) (s : Session.t)
    st st' r :
  getAccessToken L W s st = Ret r st' ->
  exists r0, requestToken L W s st = Ret r0 st'.
Proof.
  unfold getAccessToken, bind.
  destruct (requestToken L W s st) as [[resp | e] st1 |]; unfold ret;
    [intros [= _ <-] | intros [= _ <-] | discriminate]; eauto.
Qed.

(** C7, as stated, fails: with a 2xx response whose [access_token] is the
    JSON boolean [true], the token is not the string representation
    "true" of that value but the bad-verb note "%!s(bool=true)". *)
Lemma token_is_not_string_representation :
  ~ (forall (L : GoLib) (W : World) (s : Session.t) (st st' : state)
            (resp : Response) (m : gmap string JSON) (t : JSON),
        requestToken L W s st = Ret (inl resp) st' ->
        is_2xx (StatusCode resp) ->
        json_Unmarshal L (RespBody resp) = inl m ->
        m !! "access_token" = Some t ->
        getAccessToken L W s st = Ret (spec_string_of L t, None) st').
Proof.
  intros H.
  specialize (H Demo.lib (Demo.world Demo.ok_bool) Demo.s1 Demo.st1
                (mkState [Config.set_Scope "openid" Demo.cfg3; Demo.cfg_unversioned]
                   [EvDo None
                      (mkRequest "POST"
                         "https://api.mobingi.com/v3/access_token"
                         {[ "Content-Type" := ["application/json"] ]}
                         (Some (json_Marshal Demo.lib
                                  (authPayload.mk "" "" "client_credentials"
                                     "" None None))))])
                Demo.ok_bool {[ "access_token" := JBool true ]} (JBool true)).
  assert (Hrun : getAccessToken Demo.lib (Demo.world Demo.ok_bool)
                   Demo.s1 Demo.st1
                 = Ret ("%!s(bool=true)", None)
                       (mkState [Config.set_Scope "openid" Demo.cfg3; Demo.cfg_unversioned]
                          [EvDo None
                             (mkRequest "POST"
                                "https://api.mobingi.com/v3/access_token"
                                {[ "Content-Type" := ["application/json"] ]}
                                (Some (json_Marshal Demo.lib
                                         (authPayload.mk "" ""
                                            "client_credentials" ""
                                            None None))))]))
    by (vm_compute; reflexivity).
  rewrite Hrun in H.
  assert (Hfalse : Ret (A := string * option error) ("%!s(bool=true)", None)
                     (mkState [Config.set_Scope "openid" Demo.cfg3; Demo.cfg_unversioned]
                        [EvDo None
                           (mkRequest "POST"
                              "https://api.mobingi.com/v3/access_token"
                              {[ "Content-Type" := ["application/json"] ]}
                              (Some (json_Marshal Demo.lib
                                       (authPayload.mk "" ""
                                          "client_credentials" ""
                                          None None))))])
                   = Ret (spec_string_of Demo.lib (JBool true), None)
                       (mkState [Config.set_Scope "openid" Demo.cfg3; Demo.cfg_unversioned]
                          [EvDo None
                             (mkRequest "POST"
                                "https://api.mobingi.com/v3/access_token"
                                {[ "Content-Type" := ["application/json"] ]}
                                (Some (json_Marshal Demo.lib
                                         (authPayload.mk "" ""
                                            "client_credentials" ""
                                            None None))))])).
  { apply H.
    - vm_compute; reflexivity.
    - unfold is_2xx; simpl; lia.
    - reflexivity.
    - apply lookup_singleton_eq. }
  simpl in Hfalse. discriminate Hfalse.
Qed.

(** How [fmt] renders a slice and a map under [%s]. *)
Lemma printValue_JArray (L : GoLib) (l : list JSON) :
  printValue L (JArray l) = "[" +:+ join " " (map (printValue L) l) +:+ "]".
Proof.
  simpl. do 2 f_equal.
  induction l as [| x r IH]; [reflexivity |].
  destruct r as [| y r]; [reflexivity |].
  change (map (printValue L) (x :: y :: r))
    with (printValue L x :: map (printValue L) (y :: r)).
  change (join " " (printValue L x :: map (printValue L) (y :: r)))
    with (printValue L x +:+ " " +:+ join " " (map (printValue L) (y :: r))).
  now rewrite <- IH.
Qed.

Lemma printValue_JObject (L : GoLib) (m : list (string * JSON)) :
  printValue L (JObject m)
  = "map[" +:+ join " " (map (fun kv => kv.1 +:+ ":" +:+ printValue L kv.2) m)
    +:+ "]".
Proof.
  simpl. do 5 f_equal.
  induction m as [| [k x] r IH]; [reflexivity |].
  destruct r as [| [k' y] r]; [reflexivity |].
  rewrite IH.
  transitivity
    ((k +:+ ":" +:+ printValue L x) +:+ " "
     +:+ join " " (map (fun kv => kv.1 +:+ ":" +:+ printValue L kv.2)
                     ((k', y) :: r)));
    [| reflexivity].
  rewrite !append_assoc. reflexivity.
Qed.

(** Without booleans and numbers, [%s] prints what [%v] prints. *)
Lemma printValue_plain (L : GoLib) :
  forall v, plain v = true -> printValue L v = spec_string_of L v.
Proof.
  fix IH 1. intros [| b | f | x | l | m]; simpl; intros H;
    try reflexivity; try discriminate.
  - do 2 f_equal. induction l as [| x r IHr]; [reflexivity |].
    apply andb_prop in H. destruct H as [Hx Hr].
    rewrite (IH x Hx). destruct r as [| y r]; [reflexivity |].
    now rewrite (IHr Hr).
  - do 5 f_equal. induction m as [| [k x] r IHr]; [reflexivity |].
    apply andb_prop in H. destruct H as [Hx Hr].
    rewrite (IH x Hx). destruct r as [| [k' y] r]; [reflexivity |].
    now rewrite (IHr Hr).
Qed.

(** C7, amended.  For a 2xx response whose body decodes to an object:
    without an [access_token] member [getAccessToken] fails with
    "cannot find access token"; with one, no error is returned and the
    token is [fmt.Sprintf("%s", value)].  That is the string
    representation of the value when the value is a string, or an array
    or object holding no boolean and no number at any depth.  For a
    boolean or a number it is the bad-verb note "%!s(bool=...)" or
    "%!s(float64=...)" around the representation, and for null it is
    "%!s(<nil>)".  An array or object is rendered as the bracketed,
    space-separated list of its elements (key:element pairs for an
    object), each element rendered by the same rules, except that a
    nested null is "<nil>". *)
Theorem getAccessToken_access_token_member (L : GoLib) (W : World)
    (s : Session.t) (st st' : state) (resp : Response)
    (m : gmap string JSON) :
  requestToken L W s st = Ret (inl resp) st' ->
  is_2xx (StatusCode resp) ->
  json_Unmarshal L (RespBody resp) = inl m ->
  (m !! "access_token" = None ->
   getAccessToken L W s st
   = Ret ("", Some (fmt_Errorf "cannot find access token")) st') /\
  (forall t, m !! "access_token" = Some t ->
     getAccessToken L W s st = Ret (fmt_Sprintf_s L t, None) st') /\
  (forall x, fmt_Sprintf_s L (JString x) = x) /\
  (forall b, fmt_Sprintf_s L (JBool b)
             = "%!s(bool=" +:+ spec_string_of L (JBool b) +:+ ")") /\
  (forall f, fmt_Sprintf_s L (JNumber f)
             = "%!s(float64=" +:+ spec_string_of L (JNumber f) +:+ ")") /\
  fmt_Sprintf_s L JNull = "%!s(<nil>)" /\
  (forall t, t ≠ JNull -> plain t = true ->
             fmt_Sprintf_s L t = spec_string_of L t) /\
  (forall l, fmt_Sprintf_s L (JArray l)
             = "[" +:+ join " " (map (printValue L) l) +:+ "]") /\
  (forall o, fmt_Sprintf_s L (JObject o)
             = "map[" +:+ join " " (map (fun kv => kv.1 +:+ ":"
                                               +:+ printValue L kv.2) o)
               +:+ "]") /\
  (forall t, t ≠ JNull -> printValue L t = fmt_Sprintf_s L t) /\
  printValue L JNull = "<nil>".
Proof.
  intros Hreq Hcode Hm.
  rewrite (getAccessToken_received L W s st st' resp Hreq).
  rewrite (readToken_2xx L resp Hcode). unfold parseToken. rewrite Hm.
  split; [intros -> ; reflexivity |].
  split; [intros t -> ; reflexivity |].
  split; [reflexivity |]. split; [reflexivity |]. split; [reflexivity |].
  split; [reflexivity |]. split.
  { intros t Ht Hpl. rewrite <- (printValue_plain L t Hpl).
    destruct t; [congruence | reflexivity ..]. }
  split; [intros l; apply printValue_JArray |].
  split; [intros o; apply printValue_JObject |].
  split; [| reflexivity].
  intros t Ht. destruct t; [congruence | reflexivity ..].
Qed.

(** An array of strings is rendered as its plain representation. *)
Example token_of_string_array :
  fmt_Sprintf_s Demo.lib (JArray [JString "a"; JString "b"]) = "[a b]" /\
  spec_string_of Demo.lib (JArray [JString "a"; JString "b"]) = "[a b]" /\
  fmt_Sprintf_s Demo.lib (JArray [JString "a"; JBool true; JNull])
  = "[a %!s(bool=true) <nil>]".
Proof. repeat split. Qed.

Lemma getAccessToken_access_token_member_witness :
  (exists st',
     getAccessToken Demo.lib (Demo.world Demo.ok_empty) Demo.s1 Demo.st1
     = Ret ("", Some (fmt_Errorf "cannot find access token")) st') /\
  (exists st',
     getAccessToken Demo.lib (Demo.world Demo.ok_string) Demo.s1 Demo.st1
     = Ret ("X", None) st') /\
  (exists st',
     getAccessToken Demo.lib (Demo.world Demo.ok_bool) Demo.s1 Demo.st1
     = Ret ("%!s(bool=true)", None) st').
Proof.
  split; [| split]; eexists.
  - assert (Hreq : requestToken Demo.lib (Demo.world Demo.ok_empty)
                     Demo.s1 Demo.st1 = Ret (inl Demo.ok_empty) _)
      by (vm_compute; reflexivity).
    apply (getAccessToken_access_token_member _ _ _ _ _ _ ∅ Hreq).
    + unfold is_2xx; simpl; lia.
    + reflexivity.
    + apply lookup_empty.
  - assert (Hreq : requestToken Demo.lib (Demo.world Demo.ok_string)
                     Demo.s1 Demo.st1 = Ret (inl Demo.ok_string) _)
      by (vm_compute; reflexivity).
    destruct (getAccessToken_access_token_member _ _ _ _ _ _
                {[ "access_token" := JString "X" ]} Hreq
                ltac:(unfold is_2xx; simpl; lia) eq_refl) as (_ & H & _).
    apply (H (JString "X")). apply lookup_singleton_eq.
  - assert (Hreq : requestToken Demo.lib (Demo.world Demo.ok_bool)
                     Demo.s1 Demo.st1 = Ret (inl Demo.ok_bool) _)
      by (vm_compute; reflexivity).
    destruct (getAccessToken_access_token_member _ _ _ _ _ _
                {[ "access_token" := JBool true ]} Hreq
                ltac:(unfold is_2xx; simpl; lia) eq_refl) as (_ & H & _).
    apply (H (JBool true)). apply lookup_singleton_eq.
Defined.

(** ** The payload of the JSON path *)

(** [json.Marshal] writes a "scope" member exactly when the payload's
    [Scope] is not empty. *)
Lemma scope_member (p : authPayload.t) :
  "scope" ∈ (authPayload_fields p).*1 <-> authPayload.Scope p ≠ "".
Proof.
  unfold authPayload_fields, field_string, field_iface.
  destruct p as [cid sec gt sc un pw]; simpl.
  destruct un, pw; repeat case_bool_decide; simpl;
    rewrite ?elem_of_cons, ?elem_of_nil; split; intros H';
    try congruence; try tauto;
    repeat destruct H' as [H' | H']; congruence.
Qed.

(** The payload carries the configuration's scope when the grant type is
    one of the two explicit ones, and no scope in the inferred case. *)
Lemma buildPayload_Scope (c : Config.t) (p : authPayload.t) :
  buildPayload c = inl p ->
  authPayload.Scope p =
  if bool_decide (Config.GrantType c = "client_credentials"
                  \/ Config.GrantType c = "password")
  then Config.Scope c else "".
Proof.
  unfold buildPayload.
  destruct (decide (Config.GrantType c = "password")) as [Hp | Hp].
  - rewrite (bool_decide_eq_true_2 _ Hp).
    rewrite bool_decide_eq_true_2 by auto.
    destruct (bool_decide (Config.GrantType c = "client_credentials"));
      now intros [= <-].
  - rewrite (bool_decide_eq_false_2 _ Hp).
    destruct (decide (Config.GrantType c = "client_credentials")) as [Hc | Hc].
    + rewrite (bool_decide_eq_true_2 _ Hc).
      rewrite bool_decide_eq_true_2 by auto. now intros [= <-].
    + rewrite (bool_decide_eq_false_2 _ Hc).
      rewrite (bool_decide_eq_false_2
                 (Config.GrantType c = "client_credentials"
                  \/ Config.GrantType c = "password"))
        by (intros [? | ?]; congruence).
      repeat case_bool_decide; intros Heq; inversion Heq; reflexivity.
Qed.

Lemma defaultScope_nonempty (c : Config.t) : Config.Scope (defaultScope c) ≠ "".
Proof. unfold defaultScope. case_bool_decide; [discriminate | assumption]. Qed.

Lemma defaultScope_frame (c : Config.t) :
  Config.GrantType (defaultScope c) = Config.GrantType c /\
  Config.UseForm (defaultScope c) = Config.UseForm c /\
  Config.Username (defaultScope c) = Config.Username c /\
  Config.Password (defaultScope c) = Config.Password c.
Proof. unfold defaultScope. now case_bool_decide. Qed.

(** C10.  On the JSON path, whatever [getAccessToken] sends to the token
    endpoint is the marshalled payload, and that payload has a "scope"
    member exactly when the grant type is explicitly "client_credentials"
    or "password": in the inferred branch it has none, although the
    configuration's scope is not empty at that point (it has just been
    defaulted to "openid" if it was). *)
Theorem inferred_payload_has_no_scope (L : GoLib) (W : World)
    (s : Session.t) (st st' : state) (c : Config.t)
    (r : string * option error) :
  heap st !! Session.Config s = Some c ->
  Config.UseForm c = false ->
  getAccessToken L W s st = Ret r st' ->
  exists c',
    heap st' !! Session.Config s = Some c' /\
    Config.Scope c' ≠ "" /\
    (Config.Scope c = "" -> Config.Scope c' = "openid") /\
    (trace st' = trace st \/
     exists p cfg req,
       trace st' = (trace st ++ [EvDo cfg req])%list /\
       ReqBody req = Some (json_Marshal L p) /\
       (Config.GrantType c ≠ "client_credentials" ->
        Config.GrantType c ≠ "password" ->
        "scope" ∉ (authPayload_fields p).*1) /\
       ("scope" ∈ (authPayload_fields p).*1 <->
        Config.GrantType c = "client_credentials"
        \/ Config.GrantType c = "password") /\
       (Config.GrantType c = "client_credentials"
        \/ Config.GrantType c = "password" ->
        ("scope", Config.Scope c') ∈ authPayload_fields p)).
Proof.
  intros Hc Hf Hrun.
  destruct (getAccessToken_request L W s st st' r Hrun) as (r0 & Hreq).
  rewrite (requestToken_run L W s st c Hc) in Hreq.
  destruct (defaultScope_frame c) as (Hgt & Huf & _).
  apply exchange_json_trace in Hreq; [| congruence].
  destruct Hreq as (Hheap & Htrace).
  exists (defaultScope c). split.
  { rewrite Hheap. simpl. apply list_lookup_insert_eq.
    eapply lookup_lt_Some, Hc. }
  split; [apply defaultScope_nonempty |]. split.
  { intros Hs. unfold defaultScope. now rewrite bool_decide_eq_true_2. }
  destruct Htrace as [Ht | (p & req & Hp & Hnew & Ht)]; [now left | right].
  exists p, (Config.HttpClientConfig (defaultScope c)),
    (Request_Header_Add "Content-Type" "application/json" req).
  split; [exact Ht |]. split.
  { unfold http_NewRequest in Hnew.
    destruct (negb _); [discriminate |].
    destruct (url_Parse L _); [discriminate |]. now injection Hnew as <-. }
  pose proof (buildPayload_Scope _ _ Hp) as Hsc. rewrite Hgt in Hsc.
  pose proof (defaultScope_nonempty c) as Hne.
  assert (Hiff : "scope" ∈ (authPayload_fields p).*1 <->
                 Config.GrantType c = "client_credentials"
                 \/ Config.GrantType c = "password").
  { rewrite scope_member, Hsc. case_bool_decide; split; tauto. }
  split; [| split; [exact Hiff |]].
  - intros H1 H2 Hin. apply Hiff in Hin. tauto.
  - intros Hex. rewrite bool_decide_eq_true_2 in Hsc by exact Hex.
    unfold authPayload_fields. rewrite <- Hsc.
    unfold field_string at 4.
    rewrite bool_decide_eq_false_2 by congruence.
    rewrite !elem_of_app. right. right. right. left. apply list_elem_of_here.
Qed.

Lemma inferred_payload_has_no_scope_witness :
  exists st' p cfg req,
    getAccessToken Demo.lib (Demo.world Demo.ok_string) Demo.s1 Demo.st1
    = Ret ("X", None) st' /\
    heap st' !! 0%nat = Some (Config.set_Scope "openid" Demo.cfg3) /\
    trace st' = [EvDo cfg req] /\
    ReqBody req = Some (json_Marshal Demo.lib p) /\
    "scope" ∉ (authPayload_fields p).*1.
Proof.
  assert (Hrun : getAccessToken Demo.lib (Demo.world Demo.ok_string)
                   Demo.s1 Demo.st1
                 = Ret ("X", None)
                       (mkState [Config.set_Scope "openid" Demo.cfg3; Demo.cfg_unversioned]
                          [EvDo None
                             (mkRequest "POST"
                                "https://api.mobingi.com/v3/access_token"
                                {[ "Content-Type" := ["application/json"] ]}
                                (Some (json_Marshal Demo.lib
                                         (authPayload.mk "" ""
                                            "client_credentials" ""
                                            None None))))]))
    by (vm_compute; reflexivity).
  destruct (inferred_payload_has_no_scope Demo.lib (Demo.world Demo.ok_string)
              Demo.s1 Demo.st1 _ Demo.cfg3 _ eq_refl eq_refl Hrun)
    as (c' & Hc' & _ & _ & [Ht | (p & cfg & req & Ht & Hb & Hno & _)]).
  - discriminate Ht.
  - eexists _, p, cfg, req. split; [exact Hrun |].
    split; [reflexivity |]. split; [exact Ht |]. split; [exact Hb |].
    apply Hno; discriminate.
Defined.

(** ** The empty-password check *)

(** On the JSON path with an inferred grant, a user name without a
    password stops [getAccessToken] before any network call. *)
Lemma inferred_password_empty (L : GoLib) (W : World) (s : Session.t) st c :
  heap st !! Session.Config s = Some c ->
  Config.UseForm c = false ->
  Config.GrantType c ≠ "client_credentials" ->
  Config.GrantType c ≠ "password" ->
  Config.Username c ≠ "" ->
  Config.Password c = "" ->
  getAccessToken L W s st
  = Ret ("", Some (errors_New "password cannot be empty"))
        (scoped (Session.Config s) c st)
  /\ trace (scoped (Session.Config s) c st) = trace st.
Proof.
  intros Hc Hf H1 H2 Hu Hp. split; [| reflexivity].
  unfold getAccessToken, bind. rewrite (requestToken_run L W s st c Hc).
  destruct (defaultScope_frame c) as (Hgt & Huf & Hun & Hpw).
  unfold exchange, buildPayload. rewrite Huf, Hf, Hgt, Hun, Hpw.
  rewrite (bool_decide_eq_false_2 _ H1), (bool_decide_eq_false_2 _ H2).
  rewrite (bool_decide_eq_true_2 _ Hu), (bool_decide_eq_true_2 _ Hp).
  reflexivity.
Qed.

(** With the grant type set to "password" explicitly, the payload is
    built without looking at the password. *)
Lemma buildPayload_explicit_password (c : Config.t) :
  Config.GrantType c = "password" ->
  buildPayload c =
  inl (authPayload.mk (Config.ClientId c) (Config.ClientSecret c) "password"
         (Config.Scope c) (Some (Config.Username c)) (Some (Config.Password c))).
Proof.
  intros H. unfold buildPayload. rewrite (bool_decide_eq_true_2 _ H).
  now destruct (bool_decide (Config.GrantType c = "client_credentials")).
Qed.

(** C1 does not hold of the code.  The override
    [Config{GrantType: "password", Username: "u"}] has a user name and
    no password, yet [New] posts the payload (with an empty password) to
    the token endpoint and, the endpoint answering 200, returns a
    session with the received token and a nil error. *)
Theorem explicit_password_grant_sends_empty_password :
  New Demo.lib (Demo.world Demo.ok_string) [Some Demo.explicit_password]
      Demo.st0
  = Ret (Some (Session.mk 0%nat "X"), None)
        (mkState
           [Config.set_Scope "openid"
              (resolveConfig (Demo.world Demo.ok_string)
                 [Some Demo.explicit_password])]
           [EvDo None
              (mkRequest "POST" "https://api.mobingi.com/v3/access_token"
                 {[ "Content-Type" := ["application/json"] ]}
                 (Some (json_Marshal Demo.lib
                          (authPayload.mk "" "" "password" "openid"
                             (Some "u") (Some "")))))])
  /\ Config.Username (resolveConfig (Demo.world Demo.ok_string)
                        [Some Demo.explicit_password]) = "u"
  /\ Config.Password (resolveConfig (Demo.world Demo.ok_string)
                        [Some Demo.explicit_password]) = ""
  /\ Config.GrantType (resolveConfig (Demo.world Demo.ok_string)
                         [Some Demo.explicit_password]) = "password".
Proof. repeat split; vm_compute; reflexivity. Qed.

(** The same configuration without the explicit grant type is rejected
    before any network call. *)
Example inferred_password_grant_rejected :
  New Demo.lib (Demo.world Demo.ok_string) [Some Demo.user_only] Demo.st0
  = Ret (Some (Session.mk 0%nat ""),
         Some (errors_Wrap (errors_New "password cannot be empty")
                 "get access token failed"))
        (mkState
           [Config.set_Scope "openid"
              (resolveConfig (Demo.world Demo.ok_string)
                 [Some Demo.user_only])]
           []).
Proof. vm_compute; reflexivity. Qed.

(** The form-encoded path has no password check either: with a user
    name, no password and no explicit grant type, an empty form is
    posted. *)
Example form_path_posts_without_password :
  New Demo.lib (Demo.world Demo.ok_string) [Some Demo.form_user_only] Demo.st0
  = Ret (Some (Session.mk 0%nat "X"), None)
        (mkState
           [Config.set_Scope "openid"
              (resolveConfig (Demo.world Demo.ok_string)
                 [Some Demo.form_user_only])]
           [EvPostForm "https://api.mobingi.com/v3/access_token" ∅]).
Proof. vm_compute; reflexivity. Qed.

(** ** The scope default, seen from [New] *)

(** After a construction that goes through the credential exchange, the
    [Config] the returned session points to carries the defaulted scope. *)
Lemma New_scope_observable (L : GoLib) (W : World)
    (cnf : list (option Config.t)) (st : state) :
  Config.AccessToken (resolveConfig W cnf) = "" ->
  exists s err st',
    New L W cnf st = Ret (Some s, err) st' /\
    heap st' !! Session.Config s = Some (defaultScope (resolveConfig W cnf)).
Proof.
  intros Ht. rewrite (New_exchange L W cnf st Ht). cbv zeta.
  destruct (getAccessToken_total L W (Session.mk (length (heap st)) "")
              (allocated W cnf st) (resolveConfig W cnf))
    as (tok & err & st' & Hrun & Hheap & _).
  { apply alloc_lookup. }
  rewrite Hrun.
  assert (Hl : heap st' !! length (heap st)
               = Some (defaultScope (resolveConfig W cnf))).
  { rewrite Hheap. simpl. apply list_lookup_insert_eq.
    rewrite length_app. simpl. lia. }
  destruct err as [e |]; eexists _, _, _; (split; [reflexivity | exact Hl]).
Qed.

(* ===================================================================== *)
(** * Further properties of the session code *)

(** ** Shared facts *)

Lemma defaultScope_fields (c : Config.t) :
  Config.ClientId (defaultScope c) = Config.ClientId c /\
  Config.ClientSecret (defaultScope c) = Config.ClientSecret c /\
  Config.ApiVersion (defaultScope c) = Config.ApiVersion c /\
  Config.BaseApiUrl (defaultScope c) = Config.BaseApiUrl c /\
  Config.BaseRegistryUrl (defaultScope c) = Config.BaseRegistryUrl c /\
  Config.Sesha3Url (defaultScope c) = Config.Sesha3Url c /\
  Config.HttpClientConfig (defaultScope c) = Config.HttpClientConfig c.
Proof. unfold defaultScope. now case_bool_decide. Qed.

Lemma endpointOf_defaultScope (c : Config.t) :
  endpointOf (defaultScope c) = endpointOf c.
Proof.
  destruct (defaultScope_fields c) as (_ & _ & Hv & Hb & _).
  unfold endpointOf. now rewrite Hv, Hb.
Qed.

Lemma defaultScope_twice (c : Config.t) :
  defaultScope (defaultScope c) = defaultScope c.
Proof. apply defaultScope_idem, defaultScope_nonempty. Qed.

Lemma http_NewRequest_POST (L : GoLib) (u : string) (body : option string) :
  http_NewRequest L "POST" u body =
  match url_Parse L u with
  | Some err => inr err
  | None => inl (mkRequest "POST" u ∅ body)
  end.
Proof. reflexivity. Qed.

Lemma content_type_header :
  map_Add "Content-Type" "application/json" ∅
  = ({[ "Content-Type" := ["application/json"] ]} : Header).
Proof. unfold map_Add. now rewrite lookup_empty. Qed.

(** [getAccessToken] is its request part followed by [resultOf]. *)
Lemma getAccessToken_resultOf (L : GoLib) (W : World) (s : Session.t) st :
  getAccessToken L W s st =
  match requestToken L W s st with
  | Ret r st' => Ret (resultOf L r) st'
  | Panic => Panic
  end.
Proof.
  unfold getAccessToken, bind.
  destruct (requestToken L W s st) as [[resp | e] st' |]; reflexivity.
Qed.

(** The outcome and the logged calls of [exchange] do not depend on the
    state it starts from. *)
Lemma exchange_state_independent (L : GoLib) (W : World) url c st1 st2 :
  exists r evs,
    exchange L W url c st1
      = Ret r (mkState (heap st1) (trace st1 ++ evs)%list) /\
    exchange L W url c st2
      = Ret r (mkState (heap st2) (trace st2 ++ evs)%list) /\
    (length evs <= 1)%nat /\
    (forall resp, r = inl resp -> length evs = 1%nat).
Proof.
  unfold exchange. destruct (Config.UseForm c).
  - unfold http_PostForm_run.
    destruct (http_NewRequest L "POST" url None) as [r | e].
    + unfold bind, emit, ret.
      destruct (http_PostForm W url (buildForm c)); eexists _, [_];
        simpl; auto.
    + exists (inr (errors_Wrap e "do failed")), [].
      unfold bind, ret. rewrite !app_nil_r, !state_eta. simpl.
      repeat split; auto. discriminate.
  - destruct (buildPayload c) as [p | e].
    + destruct (http_NewRequest L "POST" url _) as [r | e].
      * unfold bind, emit, ret.
        destruct (client_Do W _ _); eexists _, [_]; simpl; auto.
      * exists (inr (errors_Wrap e "new request failed")), [].
        unfold ret. rewrite !app_nil_r, !state_eta. simpl.
        repeat split; auto. discriminate.
    + exists (inr e), []. unfold ret. rewrite !app_nil_r, !state_eta. simpl.
      repeat split; auto. discriminate.
Qed.

(** Every run of [New]: it returns, with a session pointing at the new
    object; the store grows by that one object; at most one call is
    logged; an error comes with the empty token. *)
Lemma New_total (L : GoLib) (W : World) (cnf : list (option Config.t)) st :
  exists tok err st' c' evs,
    New L W cnf st = Ret (Some (Session.mk (length (heap st)) tok), err) st' /\
    heap st' = (heap st ++ [c'])%list /\
    (c' = resolveConfig W cnf \/ c' = defaultScope (resolveConfig W cnf)) /\
    trace st' = (trace st ++ evs)%list /\
    (length evs <= 1)%nat /\
    (err ≠ None -> tok = "") /\
    (err = None -> Config.AccessToken (resolveConfig W cnf) = "" ->
     length evs = 1%nat) /\
    (Config.AccessToken (resolveConfig W cnf) ≠ "" ->
     evs = [] /\ err = None /\ c' = resolveConfig W cnf).
Proof.
  destruct (decide (Config.AccessToken (resolveConfig W cnf) = "")) as [Ht|Ht].
  - rewrite (New_exchange L W cnf st Ht). cbv zeta.
    rewrite getAccessToken_resultOf.
    rewrite (requestToken_run L W _ (allocated W cnf st) (resolveConfig W cnf))
      by apply alloc_lookup.
    destruct (exchange_state_independent L W
                (endpointOf (resolveConfig W cnf) +:+ "/access_token")
                (defaultScope (resolveConfig W cnf))
                (scoped (length (heap st)) (resolveConfig W cnf)
                   (allocated W cnf st))
                st)
      as (r & evs & Hex & _ & Hlen & Hone).
    simpl Session.Config. rewrite Hex.
    assert (Hh : heap (scoped (length (heap st)) (resolveConfig W cnf)
                         (allocated W cnf st))
                 = (heap st ++ [defaultScope (resolveConfig W cnf)])%list).
    { simpl.
      replace (length (heap st)) with (length (heap st) + 0)%nat at 1 by lia.
      now rewrite insert_app_r. }
    destruct (resultOf L r) as [tok [e |]] eqn:Hres.
    + exists "", (Some (errors_Wrap e "get access token failed")).
      eexists _, _, evs. split; [reflexivity |]. simpl heap. simpl trace.
      split; [exact Hh |]. split; [now right |]. split; [reflexivity |].
      split; [exact Hlen |]. split; [reflexivity |].
      split; [discriminate | congruence].
    + exists tok, None.
      eexists _, _, evs. split; [reflexivity |]. simpl heap. simpl trace.
      split; [exact Hh |]. split; [now right |]. split; [reflexivity |].
      split; [exact Hlen |]. split; [congruence |].
      split; [| congruence].
      intros _ _. destruct r as [resp | e]; [eauto | discriminate].
  - rewrite (New_preset L W cnf st Ht).
    eexists _, None, _, _, []. split; [reflexivity |]. unfold allocated.
    simpl. rewrite app_nil_r.
    repeat split; auto; congruence.
Qed.

(** ** The endpoints of a constructed session *)

(** X1.  Whatever [New] returns, success or failure, the three endpoint
    methods of the returned session answer from the resolved
    configuration: the registry endpoint is the registry base URL
    followed by "/v2" whatever the API version, the sesha3 endpoint is
    its base URL as it is, and the API endpoint is the versioned base
    URL; none of them changes the state. *)
Theorem New_then_endpoints (L : GoLib) (W : World)
    (cnf : list (option Config.t)) (st : state) :
  exists s err st',
    New L W cnf st = Ret (Some s, err) st' /\
    RegistryEndpoint s st'
      = Ret (Config.BaseRegistryUrl (spec_resolve (os_Getenv W) cnf)
             +:+ "/v2") st' /\
    Sesha3Endpoint s st'
      = Ret (Config.Sesha3Url (spec_resolve (os_Getenv W) cnf)) st' /\
    ApiEndpoint s st'
      = Ret (endpointOf (spec_resolve (os_Getenv W) cnf)) st'.
Proof.
  rewrite <- resolveConfig_spec_resolve.
  destruct (New_total L W cnf st)
    as (tok & err & st' & c' & evs & Hnew & Hheap & Hc' & _).
  exists (Session.mk (length (heap st)) tok), err, st'.
  split; [exact Hnew |].
  assert (Hl : heap st' !! length (heap st) = Some c')
    by (rewrite Hheap; now apply list_lookup_middle).
  assert (Hf : Config.BaseRegistryUrl c'
               = Config.BaseRegistryUrl (resolveConfig W cnf) /\
               Config.Sesha3Url c' = Config.Sesha3Url (resolveConfig W cnf) /\
               endpointOf c' = endpointOf (resolveConfig W cnf)).
  { destruct Hc' as [-> | ->]; [auto |].
    destruct (defaultScope_fields (resolveConfig W cnf))
      as (_ & _ & _ & _ & Hr & Hs & _).
    rewrite endpointOf_defaultScope. auto. }
  destruct Hf as (Hr & Hs & He).
  unfold RegistryEndpoint, Sesha3Endpoint. simpl Session.Config.
  rewrite !(bind_Ret _ _ _ _ _ (load_Some _ _ _ Hl)).
  rewrite (ApiEndpoint_run (Session.mk (length (heap st)) tok) _ _ Hl).
  unfold ret. now rewrite Hr, Hs, He.
Qed.

(** X2.  An override cannot select API version 0: its zero [ApiVersion]
    counts as unset, so the session's API endpoint is the base URL
    followed by "/v3". *)
Theorem New_zero_version_is_default (L : GoLib) (W : World) (o : Config.t)
    (rest : list (option Config.t)) (st : state) :
  Config.ApiVersion o = 0 ->
  exists s err st',
    New L W (Some o :: rest) st = Ret (Some s, err) st' /\
    ApiEndpoint s st'
      = Ret (pick_string BASE_API_URL (Config.BaseApiUrl o) +:+ "/v3") st'.
Proof.
  intros Hv.
  destruct (New_total L W (Some o :: rest) st)
    as (tok & err & st' & c' & evs & Hnew & Hheap & Hc' & _).
  exists (Session.mk (length (heap st)) tok), err, st'.
  split; [exact Hnew |].
  assert (Hl : heap st' !! length (heap st) = Some c')
    by (rewrite Hheap; now apply list_lookup_middle).
  rewrite (ApiEndpoint_run (Session.mk (length (heap st)) tok) _ _ Hl).
  assert (He : endpointOf c' = endpointOf (resolveConfig W (Some o :: rest)))
    by (destruct Hc' as [-> | ->];
        [reflexivity | apply endpointOf_defaultScope]).
  rewrite He, resolveConfig_spec_resolve. unfold endpointOf, spec_resolve.
  simpl. rewrite Hv. reflexivity.
Qed.

Lemma New_zero_version_is_default_witness :
  Config.ApiVersion Demo.local_api = 0 /\
  exists s err st',
    New Demo.lib Demo.offline [Some Demo.local_api] Demo.st0
    = Ret (Some s, err) st' /\
    ApiEndpoint s st' = Ret "http://localhost/v3" st'.
Proof.
  split; [reflexivity |].
  apply (New_zero_version_is_default Demo.lib Demo.offline Demo.local_api []
           Demo.st0).
  reflexivity.
Defined.

(** ** Network discipline of [New] *)

(** X3.  [New] always returns a session; it contacts the token endpoint
    at most once, never retrying; when it reports no error it has
    contacted the endpoint exactly once unless the configuration carried
    a token, in which case it has not contacted it at all; and it leaves
    every [Config] object already in the store as it was. *)
Theorem New_network_discipline (L : GoLib) (W : World)
    (cnf : list (option Config.t)) (st : state) :
  exists s err st' evs,
    New L W cnf st = Ret (Some s, err) st' /\
    trace st' = (trace st ++ evs)%list /\
    (length evs <= 1)%nat /\
    (Config.AccessToken (resolveConfig W cnf) ≠ "" -> evs = [] /\ err = None) /\
    (Config.AccessToken (resolveConfig W cnf) = "" -> err = None ->
     length evs = 1%nat) /\
    (forall p c, heap st !! p = Some c -> heap st' !! p = Some c).
Proof.
  destruct (New_total L W cnf st)
    as (tok & err & st' & c' & evs & Hnew & Hheap & _ & Htr & Hlen & _
        & Hone & Hpre).
  exists (Session.mk (length (heap st)) tok), err, st', evs.
  split; [exact Hnew |]. split; [exact Htr |]. split; [exact Hlen |].
  split; [intros H; destruct (Hpre H) as (? & ? & _); auto |].
  split; [auto |].
  intros p c Hp. rewrite Hheap. now apply lookup_app_l_Some.
Qed.

Lemma New_network_discipline_witness :
  exists s st' ev,
    New Demo.lib (Demo.world Demo.ok_string) [] Demo.st1
    = Ret (Some s, None) st' /\
    trace st' = [ev] /\
    heap st' !! 0%nat = Some Demo.cfg3.
Proof.
  destruct (New_network_discipline Demo.lib (Demo.world Demo.ok_string) []
              Demo.st1)
    as (s & err & st' & evs & Hnew & Htr & Hlen & _ & Hone & Hkeep).
  assert (Herr : err = None).
  { assert (Hrun : exists s0 st0,
               New Demo.lib (Demo.world Demo.ok_string) [] Demo.st1
               = Ret (Some s0, None) st0)
      by (eexists _, _; vm_compute; reflexivity).
    destruct Hrun as (s0 & st0 & Hrun). rewrite Hrun in Hnew.
    now injection Hnew. }
  subst err. specialize (Hone eq_refl eq_refl).
  destruct evs as [| ev [| ev' evs]]; simpl in Hone; try discriminate.
  exists s, st', ev. split; [exact Hnew |]. split; [exact Htr |].
  apply Hkeep. reflexivity.
Defined.

(** X4.  A session returned together with an error has the empty token,
    and [SimpleAuthRequest] does not refuse it: for any method and URL
    that [http.NewRequest] accepts it builds the request, whose
    authorization header is the bare scheme "Bearer " with no token. *)
Theorem failed_session_builds_bare_bearer (L : GoLib) (W : World)
    (cnf : list (option Config.t)) (st st' : state) (s : Session.t)
    (err : error) (m u : string) (body : option string) (req : Request) :
  New L W cnf st = Ret (Some s, Some err) st' ->
  http_NewRequest L m u body = inl req ->
  Session.AccessToken s = "" /\
  exists r,
    SimpleAuthRequest L s m u body = Some r /\
    ReqHeader r = {[ "Authorization" := ["Bearer "] ]} /\
    Method r = Method req /\ URL r = URL req /\ ReqBody r = ReqBody req.
Proof.
  intros Hnew Hreq.
  destruct (New_total L W cnf st)
    as (tok & err' & st'' & c' & evs & Hnew' & _ & _ & _ & _ & Hempty & _).
  rewrite Hnew in Hnew'. injection Hnew' as -> <- <-.
  assert (Htok : tok = "") by (apply Hempty; discriminate).
  subst tok. split; [reflexivity |].
  unfold SimpleAuthRequest. rewrite Hreq. eexists. split; [reflexivity |].
  unfold http_NewRequest in Hreq.
  destruct (negb _); [discriminate |].
  destruct (url_Parse L u); [discriminate |].
  injection Hreq as <-. simpl. unfold map_Add. rewrite lookup_empty.
  auto.
Qed.

Lemma failed_session_builds_bare_bearer_witness :
  exists s err st' r,
    New Demo.lib Demo.offline [] Demo.st0 = Ret (Some s, Some err) st' /\
    SimpleAuthRequest Demo.lib s "GET" "https://api.mobingi.com/v3/alm" None
    = Some r /\
    ReqHeader r = {[ "Authorization" := ["Bearer "] ]}.
Proof.
  assert (Hnew : exists s err st',
             New Demo.lib Demo.offline [] Demo.st0
             = Ret (Some s, Some err) st')
    by (eexists _, _, _; vm_compute; reflexivity).
  destruct Hnew as (s & err & st' & Hnew).
  destruct (failed_session_builds_bare_bearer Demo.lib Demo.offline []
              Demo.st0 st' s err "GET" "https://api.mobingi.com/v3/alm" None
              _ Hnew eq_refl)
    as (_ & r & Hr & Hh & _).
  exists s, err, st', r. auto.
Defined.

(** ** What is sent to the token endpoint *)

Lemma accessTokenUrlOf_defaultScope (c : Config.t) :
  accessTokenUrlOf (defaultScope c) = accessTokenUrlOf c.
Proof. unfold accessTokenUrlOf. now rewrite endpointOf_defaultScope. Qed.

(** X5.  On the JSON path, once the payload is built and the token URL
    parses, [getAccessToken] makes exactly one call: a POST to the API
    endpoint followed by "/access_token", whose only header is
    "Content-Type: application/json" and whose body is the marshalled
    payload, through the client made from the configuration's
    [HttpClientConfig].  Its result is read off the client's answer. *)
Theorem json_path_request (L : GoLib) (W : World) (s : Session.t)
    (st : state) (c : Config.t) (p : authPayload.t) :
  heap st !! Session.Config s = Some c ->
  Config.UseForm c = false ->
  buildPayload (defaultScope c) = inl p ->
  url_Parse L (accessTokenUrlOf c) = None ->
  exists st',
    getAccessToken L W s st
    = Ret (resultOf L
             match client_Do W (Config.HttpClientConfig c)
                     (tokenRequest L c p) with
             | inl resp => inl resp
             | inr err => inr (errors_Wrap err "do failed")
             end) st' /\
    trace st'
    = (trace st ++ [EvDo (Config.HttpClientConfig c) (tokenRequest L c p)])%list
    /\ heap st' = <[Session.Config s := defaultScope c]> (heap st).
Proof.
  intros Hc Hf Hp Hu. rewrite getAccessToken_resultOf.
  assert (Hreq : http_NewRequest L "POST"
                   (endpointOf c +:+ "/access_token")
                   (Some (json_Marshal L p))
                 = inl (mkRequest "POST" (accessTokenUrlOf c) ∅
                          (Some (json_Marshal L p)))).
  { rewrite http_NewRequest_POST. unfold accessTokenUrlOf in Hu.
    now rewrite Hu. }
  rewrite (requestToken_json L W s st c p _ Hc Hf Hp Hreq).
  unfold Request_Header_Add. simpl. rewrite content_type_header.
  eexists. split; [reflexivity |]. simpl. auto.
Qed.

Lemma json_path_request_witness :
  exists st',
    getAccessToken Demo.lib (Demo.world Demo.ok_string) Demo.s1 Demo.st1
    = Ret ("X", None) st' /\
    trace st'
    = [EvDo None
         (mkRequest "POST" "https://api.mobingi.com/v3/access_token"
            {[ "Content-Type" := ["application/json"] ]}
            (Some (json_Marshal Demo.lib
                     (authPayload.mk "" "" "client_credentials" ""
                        None None))))].
Proof.
  destruct (json_path_request Demo.lib (Demo.world Demo.ok_string) Demo.s1
              Demo.st1 Demo.cfg3
              (authPayload.mk "" "" "client_credentials" "" None None)
              eq_refl eq_refl eq_refl eq_refl)
    as (st' & Hrun & Htr & _).
  exists st'. split; [exact Hrun | exact Htr].
Defined.

(** X6.  On the form path [getAccessToken] checks nothing itself before
    calling [http.PostForm]: there is no empty-password check and the
    configured HTTP client is never used.  When the token URL parses,
    exactly one form POST is made, to the API endpoint followed by
    "/access_token" with the built form, and the result is read off its
    answer.  When the URL does not parse, [http.PostForm] sends nothing
    and its error comes back wrapped under "do failed". *)
Theorem form_path_request (L : GoLib) (W : World) (s : Session.t)
    (st : state) (c : Config.t) :
  heap st !! Session.Config s = Some c ->
  Config.UseForm c = true ->
  (url_Parse L (accessTokenUrlOf c) = None ->
   exists st',
     getAccessToken L W s st
     = Ret (resultOf L
              match http_PostForm W (accessTokenUrlOf c)
                      (buildForm (defaultScope c)) with
              | inl resp => inl resp
              | inr err => inr (errors_Wrap err "do failed")
              end) st' /\
     trace st'
     = (trace st
        ++ [EvPostForm (accessTokenUrlOf c) (buildForm (defaultScope c))])%list
     /\ heap st' = <[Session.Config s := defaultScope c]> (heap st)) /\
  (forall e, url_Parse L (accessTokenUrlOf c) = Some e ->
   exists st',
     getAccessToken L W s st = Ret ("", Some (errors_Wrap e "do failed")) st' /\
     trace st' = trace st /\
     heap st' = <[Session.Config s := defaultScope c]> (heap st)).
Proof.
  intros Hc Hf. split.
  - intros Hu. rewrite getAccessToken_resultOf.
    rewrite (requestToken_form L W s st c Hc Hf Hu).
    eexists. split; [reflexivity |]. simpl. auto.
  - intros e Hu. rewrite getAccessToken_resultOf.
    rewrite (requestToken_form_bad_url L W s st c e Hc Hf Hu).
    eexists. split; [reflexivity |]. simpl. auto.
Qed.

Lemma form_path_request_witness :
  (exists st',
     getAccessToken Demo.lib (Demo.world Demo.ok_string) Demo.s1
       (mkState [Config.set_UseForm true Demo.cfg3] [])
     = Ret ("X", None) st' /\
     trace st'
     = [EvPostForm "https://api.mobingi.com/v3/access_token" ∅]) /\
  (exists st',
     getAccessToken Demo.lib_bad_url (Demo.world Demo.ok_string) Demo.s1
       (mkState [Config.set_UseForm true Demo.cfg3] [])
     = Ret ("", Some (errors_Wrap (lib_error "invalid URL") "do failed")) st'
     /\ trace st' = []).
Proof.
  split.
  - destruct (form_path_request Demo.lib (Demo.world Demo.ok_string) Demo.s1
                (mkState [Config.set_UseForm true Demo.cfg3] [])
                (Config.set_UseForm true Demo.cfg3) eq_refl eq_refl)
      as [Hok _].
    destruct (Hok eq_refl) as (st' & Hrun & Htr & _).
    exists st'. split; [exact Hrun | exact Htr].
  - destruct (form_path_request Demo.lib_bad_url (Demo.world Demo.ok_string)
                Demo.s1 (mkState [Config.set_UseForm true Demo.cfg3] [])
                (Config.set_UseForm true Demo.cfg3) eq_refl eq_refl)
      as [_ Hbad].
    destruct (Hbad (lib_error "invalid URL") eq_refl) as (st' & Hrun & Htr & _).
    exists st'. split; [exact Hrun | exact Htr].
Defined.

Lemma map_Add_fresh (k v : string) (h : gmap string (list string)) :
  h !! k = None -> map_Add k v h = <[k := [v]]> h.
Proof. intros H. unfold map_Add. now rewrite H. Qed.

Lemma map_Add_other (k k' v : string) (h : gmap string (list string)) :
  k ≠ k' -> map_Add k v h !! k' = h !! k'.
Proof. intros H. unfold map_Add. now rewrite lookup_insert_ne. Qed.

Ltac fresh_key :=
  repeat (rewrite map_Add_other by discriminate); now rewrite lookup_empty.

(** X7.  The posted form.  For "client_credentials" it has exactly the
    four fields client_id, client_secret, grant_type and scope; for
    "password" it has those and username and password; every field
    holds one value and is present even when that value is empty.  For
    any other grant type the form is empty: the form path never infers
    a grant and then sends no credentials at all. *)
Theorem buildForm_fields (c : Config.t) :
  (Config.GrantType c = "client_credentials" ->
   buildForm c =
   list_to_map [("scope", [Config.Scope c]);
                ("grant_type", ["client_credentials"]);
                ("client_secret", [Config.ClientSecret c]);
                ("client_id", [Config.ClientId c])]) /\
  (Config.GrantType c = "password" ->
   buildForm c =
   list_to_map [("password", [Config.Password c]);
                ("username", [Config.Username c]);
                ("scope", [Config.Scope c]);
                ("grant_type", ["password"]);
                ("client_secret", [Config.ClientSecret c]);
                ("client_id", [Config.ClientId c])]) /\
  (Config.GrantType c ≠ "client_credentials" ->
   Config.GrantType c ≠ "password" ->
   buildForm c = ∅).
Proof.
  unfold buildForm. repeat split.
  - intros H. repeat case_bool_decide; try congruence. rewrite H.
    rewrite !map_Add_fresh by fresh_key. reflexivity.
  - intros H. repeat case_bool_decide; try congruence. rewrite H.
    rewrite !map_Add_fresh by fresh_key. reflexivity.
  - intros H1 H2. repeat case_bool_decide; congruence.
Qed.

Lemma buildForm_fields_witness :
  buildForm (resolveConfig Demo.offline [Some Demo.form_password])
  = list_to_map [("password", ["p"]); ("username", ["u"]); ("scope", [""]);
                 ("grant_type", ["password"]); ("client_secret", [""]);
                 ("client_id", [""])]
  /\ buildForm (resolveConfig Demo.offline [Some Demo.odd_grant]) = ∅.
Proof.
  split.
  - apply (buildForm_fields
             (resolveConfig Demo.offline [Some Demo.form_password])).
    reflexivity.
  - apply (buildForm_fields
             (resolveConfig Demo.offline [Some Demo.odd_grant]));
      discriminate.
Defined.

(** ** Failure modes of the exchange *)



(** X9.  A transport failure, on either path, makes [getAccessToken]
    fail with that error wrapped under "do failed" and the empty token,
    and [New], which called it, returns the session with the empty token
    and the error wrapped once more, whose message reads
    "get access token failed: do failed: " followed by the cause. *)
Theorem transport_failure_is_wrapped (L : GoLib) (W : World)
    (cnf : list (option Config.t)) (st : state) (e : error) :
  Config.AccessToken (resolveConfig W cnf) = "" ->
  (Config.UseForm (resolveConfig W cnf) = true /\
   url_Parse L (accessTokenUrlOf (resolveConfig W cnf)) = None /\
   http_PostForm W (accessTokenUrlOf (resolveConfig W cnf))
     (buildForm (defaultScope (resolveConfig W cnf))) = inr e)
  \/ (Config.UseForm (resolveConfig W cnf) = false /\
      exists p,
        buildPayload (defaultScope (resolveConfig W cnf)) = inl p /\
        url_Parse L (accessTokenUrlOf (resolveConfig W cnf)) = None /\
        client_Do W (Config.HttpClientConfig (resolveConfig W cnf))
          (tokenRequest L (resolveConfig W cnf) p) = inr e) ->
  exists st' err,
    getAccessToken L W (Session.mk (length (heap st)) "") (allocated W cnf st)
    = Ret ("", Some (errors_Wrap e "do failed")) st' /\
    New L W cnf st = Ret (Some (Session.mk (length (heap st)) ""), Some err) st'
    /\ err = errors_Wrap (errors_Wrap e "do failed") "get access token failed"
    /\ Error err = "get access token failed: do failed: " +:+ Error e.
Proof.
  intros Ht Hcase.
  assert (Hrun : exists st',
             getAccessToken L W (Session.mk (length (heap st)) "")
               (allocated W cnf st)
             = Ret ("", Some (errors_Wrap e "do failed")) st').
  { destruct Hcase as [(Hf & Hu & Hpost) | (Hf & p & Hp & Hu & Hdo)];
      rewrite getAccessToken_resultOf.
    - rewrite (requestToken_form L W (Session.mk (length (heap st)) "")
                 (allocated W cnf st) (resolveConfig W cnf)
                 (alloc_lookup _ _) Hf Hu).
      unfold accessTokenUrlOf in Hpost. rewrite Hpost.
      eexists. reflexivity.
    - assert (Hreq : http_NewRequest L "POST"
                       (endpointOf (resolveConfig W cnf) +:+ "/access_token")
                       (Some (json_Marshal L p))
                     = inl (mkRequest "POST"
                              (accessTokenUrlOf (resolveConfig W cnf)) ∅
                              (Some (json_Marshal L p)))).
      { rewrite http_NewRequest_POST. unfold accessTokenUrlOf in Hu.
        now rewrite Hu. }
      rewrite (requestToken_json L W (Session.mk (length (heap st)) "")
                 (allocated W cnf st) (resolveConfig W cnf) p _
                 (alloc_lookup _ _) Hf Hp Hreq).
      unfold Request_Header_Add. simpl ReqHeader. simpl Method. simpl URL.
      simpl ReqBody. rewrite content_type_header.
      unfold tokenRequest in Hdo. rewrite Hdo.
      eexists. reflexivity. }
  destruct Hrun as (st' & Hrun).
  exists st', (errors_Wrap (errors_Wrap e "do failed") "get access token failed").
  split; [exact Hrun |]. split; [| split; reflexivity].
  rewrite (New_exchange L W cnf st Ht). cbv zeta. now rewrite Hrun.
Qed.

Lemma transport_failure_is_wrapped_witness :
  exists st' err,
    New Demo.lib Demo.offline [] Demo.st0
    = Ret (Some (Session.mk 0%nat ""), Some err) st' /\
    Error err = "get access token failed: do failed: connection refused".
Proof.
  destruct (transport_failure_is_wrapped Demo.lib Demo.offline [] Demo.st0
              (lib_error "connection refused") eq_refl)
    as (st' & err & _ & Hnew & _ & Hmsg).
  - right. split; [reflexivity |].
    exists (authPayload.mk "" "" "client_credentials" "" None None).
    repeat split.
  - exists st', err. split; [exact Hnew | exact Hmsg].
Defined.

(** X10.  When a 2xx response carries a body that does not decode to a
    JSON object, [getAccessToken] fails with the decoder's error wrapped
    under "unmarshal failed" and returns the empty token. *)
Theorem undecodable_body_fails (L : GoLib) (W : World) (s : Session.t)
    (st st' : state) (resp : Response) (e : error) :
  requestToken L W s st = Ret (inl resp) st' ->
  is_2xx (StatusCode resp) ->
  json_Unmarshal L (RespBody resp) = inr e ->
  getAccessToken L W s st
  = Ret ("", Some (errors_Wrap e "unmarshal failed")) st'
  /\ Error (errors_Wrap e "unmarshal failed")
     = "unmarshal failed: " +:+ Error e.
Proof.
  intros Hreq Hcode He. split; [| reflexivity].
  rewrite (getAccessToken_received L W s st st' resp Hreq).
  rewrite (readToken_2xx L resp Hcode). unfold parseToken. now rewrite He.
Qed.

Lemma undecodable_body_fails_witness :
  exists st',
    getAccessToken Demo.lib (Demo.world Demo.ok_garbage) Demo.s1 Demo.st1
    = Ret ("", Some (errors_Wrap (lib_error "invalid character")
                       "unmarshal failed")) st'.
Proof.
  eexists.
  assert (Hreq : requestToken Demo.lib (Demo.world Demo.ok_garbage)
                   Demo.s1 Demo.st1 = Ret (inl Demo.ok_garbage) _)
    by (vm_compute; reflexivity).
  apply (undecodable_body_fails Demo.lib (Demo.world Demo.ok_garbage)
           Demo.s1 Demo.st1 _ Demo.ok_garbage (lib_error "invalid character")
           Hreq).
  - unfold is_2xx; simpl; lia.
  - reflexivity.
Defined.

(** ** The payload of the JSON path, continued *)

Ltac payload_built :=
  split; [split; [intros [e He]; discriminate | tauto] |];
  split; [intros e He; discriminate |];
  intros p [= <-]; simpl; unfold authPayload_fields, field_string;
  simpl; rewrite !elem_of_app;
  repeat split; auto;
  right; right; left; apply list_elem_of_here.

(** X11.  Building the JSON payload fails in one case only: the grant
    type is neither "client_credentials" nor "password", a user name is
    set and the password is empty; the error is then
    "password cannot be empty".  In every other case the payload's grant
    type is the explicit one when it is one of the two known values, and
    otherwise "password" with a user name and "client_credentials"
    without: an unknown grant type is silently replaced. *)
Theorem buildPayload_outcome (c : Config.t) :
  ((exists e, buildPayload c = inr e) <->
   Config.GrantType c ≠ "client_credentials" /\
   Config.GrantType c ≠ "password" /\
   Config.Username c ≠ "" /\ Config.Password c = "") /\
  (forall e, buildPayload c = inr e ->
             e = errors_New "password cannot be empty") /\
  (forall p, buildPayload c = inl p ->
             authPayload.GrantType p = grantOf c /\
             ("grant_type", grantOf c) ∈ authPayload_fields p /\
             (grantOf c = "password" \/ grantOf c = "client_credentials") /\
             authPayload.ClientId p = Config.ClientId c /\
             authPayload.ClientSecret p = Config.ClientSecret c).
Proof.
  unfold buildPayload, grantOf.
  repeat case_bool_decide; simpl;
    first [ payload_built
          | split; [split; [auto | eauto] |];
            split; [now intros e [= <-] | intros p Hx; discriminate] ].
Qed.

Lemma buildPayload_outcome_witness :
  (exists e, buildPayload (resolveConfig Demo.offline [Some Demo.user_only])
             = inr e) /\
  buildPayload (resolveConfig Demo.offline [Some Demo.user_only])
  = inr (errors_New "password cannot be empty") /\
  exists p, buildPayload (resolveConfig Demo.offline [Some Demo.odd_grant])
            = inl p /\
            authPayload.GrantType p = "client_credentials".
Proof.
  assert (He : exists e,
             buildPayload (resolveConfig Demo.offline [Some Demo.user_only])
             = inr e).
  { apply (buildPayload_outcome
             (resolveConfig Demo.offline [Some Demo.user_only])).
    repeat split; discriminate. }
  split; [exact He |]. split.
  - destruct He as (e & He). rewrite He. f_equal.
    now apply (buildPayload_outcome
                 (resolveConfig Demo.offline [Some Demo.user_only])).
  - eexists. split; [reflexivity |].
    now apply (buildPayload_outcome
                 (resolveConfig Demo.offline [Some Demo.odd_grant])).
Defined.

Lemma fields_keys (p : authPayload.t) :
  ("client_id" ∈ (authPayload_fields p).*1 <-> authPayload.ClientId p ≠ "") /\
  ("client_secret" ∈ (authPayload_fields p).*1
   <-> authPayload.ClientSecret p ≠ "") /\
  ("username" ∈ (authPayload_fields p).*1
   <-> authPayload.Username p ≠ None) /\
  ("password" ∈ (authPayload_fields p).*1
   <-> authPayload.Password p ≠ None).
Proof.
  unfold authPayload_fields, field_string, field_iface.
  destruct p as [cid sec gt sc un pw]; simpl.
  destruct un, pw; repeat case_bool_decide; simpl;
    rewrite ?elem_of_cons, ?elem_of_nil; repeat split; intros H';
    try congruence; try tauto;
    repeat destruct H' as [H' | H']; congruence.
Qed.

Lemma iface_members (p : authPayload.t) (u w : string) :
  authPayload.Username p = Some u ->
  authPayload.Password p = Some w ->
  ("username", u) ∈ authPayload_fields p /\
  ("password", w) ∈ authPayload_fields p.
Proof.
  intros Hu Hw. unfold authPayload_fields. rewrite Hu, Hw. simpl.
  rewrite !elem_of_app. split.
  - do 4 right. apply list_elem_of_here.
  - do 4 right. apply list_elem_of_further, list_elem_of_here.
Qed.

(** X12.  Which credentials the JSON payload carries.  With the
    "password" grant the members "username" and "password" are always
    written with the configuration's values, also when a value is empty
    (they are not subject to omit-if-empty); with the
    "client_credentials" grant neither member is written, even when the
    configuration holds a user name and a password.  "client_id" and
    "client_secret" are written exactly when they are not empty. *)
Theorem payload_credentials (c : Config.t) (p : authPayload.t) :
  buildPayload c = inl p ->
  (grantOf c = "password" ->
   ("username", Config.Username c) ∈ authPayload_fields p /\
   ("password", Config.Password c) ∈ authPayload_fields p) /\
  (grantOf c = "client_credentials" ->
   ("username" ∉ (authPayload_fields p).*1) /\
   ("password" ∉ (authPayload_fields p).*1)) /\
  ("client_id" ∈ (authPayload_fields p).*1 <-> Config.ClientId c ≠ "") /\
  ("client_secret" ∈ (authPayload_fields p).*1
   <-> Config.ClientSecret c ≠ "").
Proof.
  intros Hp.
  destruct (fields_keys p) as (Kid & Ksec & Kun & Kpw).
  assert (Hcase :
    authPayload.ClientId p = Config.ClientId c /\
    authPayload.ClientSecret p = Config.ClientSecret c /\
    ((grantOf c = "password" /\
      authPayload.Username p = Some (Config.Username c) /\
      authPayload.Password p = Some (Config.Password c))
     \/ (grantOf c = "client_credentials" /\
         authPayload.Username p = None /\ authPayload.Password p = None))).
  { revert Hp. unfold buildPayload, grantOf.
    repeat case_bool_decide; intros Hp; inversion Hp; subst; simpl;
      auto 10. }
  destruct Hcase as (Hid & Hsec & Hgrant).
  rewrite Kid, Ksec, Kun, Kpw, Hid, Hsec.
  split; [| split; [| split; reflexivity]].
  - intros Hg. destruct Hgrant as [(_ & Hu & Hw) | (Hg' & _)].
    + now apply iface_members.
    + rewrite Hg in Hg'. discriminate.
  - intros Hg. destruct Hgrant as [(Hg' & _) | (_ & -> & ->)].
    + rewrite Hg in Hg'. discriminate.
    + split; intros H; now apply H.
Qed.

Lemma payload_credentials_witness :
  (exists p,
     buildPayload (resolveConfig Demo.offline [Some Demo.explicit_password])
     = inl p /\ ("password", "") ∈ authPayload_fields p) /\
  (exists p,
     buildPayload (resolveConfig Demo.offline [Some Demo.cc_with_user])
     = inl p /\ "username" ∉ (authPayload_fields p).*1).
Proof.
  split; eexists; (split; [reflexivity |]).
  - apply (payload_credentials
             (resolveConfig Demo.offline [Some Demo.explicit_password]));
      reflexivity.
  - apply (payload_credentials
             (resolveConfig Demo.offline [Some Demo.cc_with_user]));
      reflexivity.
Defined.

(** ** Asking for a token again *)

(** X14.  [getAccessToken] can be repeated: run a second time on the
    state the first run left, it returns the same result and sends the
    same request again, and it leaves the store as the first run left it
    (the scope default is written once). *)
Theorem getAccessToken_repeatable (L : GoLib) (W : World) (s : Session.t)
    (st st1 : state) (c : Config.t) (r : string * option error) :
  heap st !! Session.Config s = Some c ->
  getAccessToken L W s st = Ret r st1 ->
  exists st2 evs,
    getAccessToken L W s st1 = Ret r st2 /\
    heap st2 = heap st1 /\
    trace st1 = (trace st ++ evs)%list /\
    trace st2 = (trace st1 ++ evs)%list.
Proof.
  intros Hc Hrun.
  assert (Hlt : (Session.Config s < length (heap st))%nat)
    by (eapply lookup_lt_Some, Hc).
  rewrite getAccessToken_resultOf, (requestToken_run L W s st c Hc) in Hrun.
  destruct (exchange_state_independent L W
              (endpointOf c +:+ "/access_token") (defaultScope c)
              (scoped (Session.Config s) c st)
              (scoped (Session.Config s) (defaultScope c) st1))
    as (r0 & evs & Hex1 & Hex2 & _).
  rewrite Hex1 in Hrun.
  assert (Hr : r = resultOf L r0) by congruence.
  assert (Hst : st1 = mkState (heap (scoped (Session.Config s) c st))
                        (trace (scoped (Session.Config s) c st) ++ evs)%list)
    by congruence.
  clear Hrun.
  assert (Hc1 : heap st1 !! Session.Config s = Some (defaultScope c))
    by (rewrite Hst; simpl; now apply list_lookup_insert_eq).
  rewrite getAccessToken_resultOf, (requestToken_run L W s st1 _ Hc1).
  rewrite endpointOf_defaultScope, defaultScope_twice, Hex2.
  eexists _, evs. split; [now rewrite Hr |]. simpl.
  rewrite defaultScope_twice, Hst. simpl.
  rewrite list_insert_insert_eq. auto.
Qed.

Lemma getAccessToken_repeatable_witness :
  exists st1 st2 ev,
    getAccessToken Demo.lib (Demo.world Demo.ok_string) Demo.s1 Demo.st1
    = Ret ("X", None) st1 /\
    getAccessToken Demo.lib (Demo.world Demo.ok_string) Demo.s1 st1
    = Ret ("X", None) st2 /\
    heap st2 = heap st1 /\
    trace st2 = [ev; ev].
Proof.
  assert (Hrun : exists st1 ev,
             getAccessToken Demo.lib (Demo.world Demo.ok_string) Demo.s1
               Demo.st1 = Ret ("X", None) st1 /\ trace st1 = [ev])
    by (eexists _, _; split; vm_compute; reflexivity).
  destruct Hrun as (st1 & ev & Hrun & Htr).
  destruct (getAccessToken_repeatable Demo.lib (Demo.world Demo.ok_string)
              Demo.s1 Demo.st1 st1 Demo.cfg3 ("X", None) eq_refl Hrun)
    as (st2 & evs & Hrun2 & Hheap & Ht1 & Ht2).
  exists st1, st2, ev. split; [exact Hrun |]. split; [exact Hrun2 |].
  split; [exact Hheap |].
  rewrite Htr in Ht1. simpl in Ht1. subst evs. rewrite Ht2, Htr. reflexivity.
Defined.

(** ** Invariants of the resolved configuration *)

Lemma pick_string_nonempty (d o : string) : d ≠ "" -> pick_string d o ≠ "".
Proof. intros H. unfold pick_string. now case_bool_decide. Qed.

Lemma spec_resolve_cases (getenv : string -> string)
    (cnf : list (option Config.t)) :
  spec_resolve getenv cnf = spec_defaults getenv
  \/ exists o, spec_resolve getenv cnf = spec_overlay (spec_defaults getenv) o.
Proof.
  unfold spec_resolve. destruct cnf as [| [o |] rest]; simpl; eauto.
Qed.

(** X15.  Whatever the environment and the overrides, the resolved
    configuration has its three base URLs set and an API version other
    than 0: an override can replace these defaults but cannot blank
    them. *)
Theorem resolved_urls_and_version_set (W : World)
    (cnf : list (option Config.t)) :
  Config.BaseApiUrl (resolveConfig W cnf) ≠ "" /\
  Config.BaseRegistryUrl (resolveConfig W cnf) ≠ "" /\
  Config.Sesha3Url (resolveConfig W cnf) ≠ "" /\
  Config.ApiVersion (resolveConfig W cnf) ≠ 0.
Proof.
  rewrite resolveConfig_spec_resolve.
  destruct (spec_resolve_cases (os_Getenv W) cnf) as [-> | (o & ->)]; simpl.
  - repeat split; discriminate.
  - repeat split; try (apply pick_string_nonempty; discriminate).
    unfold pick_int. case_bool_decide; [discriminate | assumption].
Qed.

Lemma grant_type_member (p : authPayload.t) :
  authPayload.GrantType p ≠ "" ->
  ("grant_type", authPayload.GrantType p) ∈ authPayload_fields p.
Proof.
  intros H. unfold authPayload_fields. rewrite !elem_of_app.
  right. right. left. unfold field_string.
  rewrite bool_decide_eq_false_2 by exact H. apply list_elem_of_here.
Qed.

(** X16.  Credentials found in the environment can be replaced by an
    override but not removed: a non-empty MOBINGI_CLIENT_ID,
    MOBINGI_CLIENT_SECRET, MOBINGI_USERNAME or MOBINGI_PASSWORD leaves
    the corresponding resolved field non-empty.  So with
    MOBINGI_USERNAME set and a grant type other than
    "client_credentials", the payload [getAccessToken] builds on the
    JSON path (from the scope-defaulted resolved configuration) is never
    a client-credentials one: building it either stops with
    "password cannot be empty", which happens only when the resolved
    password is empty, or yields a payload whose grant_type member is
    "password" and which carries the resolved user name. *)
Theorem environment_credentials_stay (W : World)
    (cnf : list (option Config.t)) :
  (os_Getenv W "MOBINGI_CLIENT_ID" ≠ "" ->
   Config.ClientId (resolveConfig W cnf) ≠ "") /\
  (os_Getenv W "MOBINGI_CLIENT_SECRET" ≠ "" ->
   Config.ClientSecret (resolveConfig W cnf) ≠ "") /\
  (os_Getenv W "MOBINGI_USERNAME" ≠ "" ->
   Config.Username (resolveConfig W cnf) ≠ "") /\
  (os_Getenv W "MOBINGI_PASSWORD" ≠ "" ->
   Config.Password (resolveConfig W cnf) ≠ "") /\
  (os_Getenv W "MOBINGI_USERNAME" ≠ "" ->
   Config.GrantType (resolveConfig W cnf) ≠ "client_credentials" ->
   (forall p,
      buildPayload (defaultScope (resolveConfig W cnf)) = inl p ->
      authPayload.GrantType p = "password" /\
      ("grant_type", "password") ∈ authPayload_fields p /\
      ("username", Config.Username (resolveConfig W cnf))
        ∈ authPayload_fields p) /\
   (forall e,
      buildPayload (defaultScope (resolveConfig W cnf)) = inr e ->
      e = errors_New "password cannot be empty" /\
      Config.Password (resolveConfig W cnf) = "")).
Proof.
  assert (Hu : os_Getenv W "MOBINGI_USERNAME" ≠ "" ->
               Config.Username (resolveConfig W cnf) ≠ "").
  { rewrite resolveConfig_spec_resolve.
    destruct (spec_resolve_cases (os_Getenv W) cnf) as [-> | (o & ->)];
      simpl; [auto | apply pick_string_nonempty]. }
  split; [| split; [| split; [exact Hu | split]]].
  1-3: rewrite resolveConfig_spec_resolve;
       destruct (spec_resolve_cases (os_Getenv W) cnf) as [-> | (o & ->)];
       simpl; [auto | apply pick_string_nonempty].
  intros Henv Hcc. specialize (Hu Henv).
  destruct (defaultScope_frame (resolveConfig W cnf)) as (Hgt & _ & Hun & Hpw).
  split.
  - intros p Hp.
    assert (Hfacts : authPayload.GrantType p = "password" /\
                     authPayload.Username p
                     = Some (Config.Username (resolveConfig W cnf)) /\
                     authPayload.Password p
                     = Some (Config.Password (resolveConfig W cnf))).
    { revert Hp. unfold buildPayload. rewrite Hgt, Hun, Hpw.
      repeat case_bool_decide; intros Hp; inversion Hp; subst; simpl;
        auto; congruence. }
    destruct Hfacts as (Hg & Hn & Hw).
    split; [exact Hg |]. split.
    + rewrite <- Hg. apply grant_type_member. rewrite Hg. discriminate.
    + now apply (iface_members p _ _ Hn Hw).
  - intros e. unfold buildPayload. rewrite Hgt, Hun, Hpw.
    repeat case_bool_decide; intros He; inversion He; subst; auto;
      congruence.
Qed.

Lemma environment_credentials_stay_witness :
  Config.Username
    (resolveConfig Demo.with_env_user [Some Demo.local_api]) = "env-user" /\
  exists p,
    buildPayload
      (defaultScope (resolveConfig Demo.with_env_user [Some Demo.local_api]))
    = inl p /\
    authPayload.GrantType p = "password" /\
    ("username", "env-user") ∈ authPayload_fields p.
Proof.
  split; [reflexivity |].
  destruct (environment_credentials_stay Demo.with_env_user
              [Some Demo.local_api]) as (_ & _ & _ & _ & Hg).
  destruct Hg as [Hp _]; [discriminate | discriminate |].
  eexists. split; [reflexivity |].
  destruct (Hp _ eq_refl) as (Hgt & _ & Hun).
  split; [exact Hgt | exact Hun].
Defined.

(** X17.  Resolution treats an all-zero override like no override, and
    applying the same override twice changes nothing more: the overlay
    is idempotent, and overlaying a configuration on itself returns
    it. *)
Theorem overlay_degenerate_cases (W : World) (d o : Config.t) :
  resolveConfig W [Some Config.zero] = resolveConfig W [] /\
  overlay (overlay d [Some o]) [Some o] = overlay d [Some o] /\
  overlay d [Some d] = d.
Proof.
  split; [reflexivity |].
  rewrite !overlay_spec_overlay. split.
  - apply Config_ext; simpl;
      unfold pick_string, pick_int, pick_bool, pick_ptr;
      repeat case_bool_decide; try reflexivity; try congruence.
    + now destruct (Config.UseForm o).
    + now destruct (Config.HttpClientConfig o).
  - apply Config_ext; simpl;
      unfold pick_string, pick_int, pick_bool, pick_ptr;
      repeat case_bool_decide; try reflexivity; try congruence.
    + now destruct (Config.UseForm d).
    + now destruct (Config.HttpClientConfig d).
Qed.

(** ** A successful construction *)

(** X18.  End to end on the JSON path: when the configuration carries no
    token, the payload is built, the token URL parses, and the client
    answers the one request with a 2xx response whose body decodes to an
    object with a string [access_token], [New] returns a session holding
    exactly that string and a nil error.  The string is not inspected: an
    empty one is adopted as well. *)
Theorem New_adopts_exchanged_token (L : GoLib) (W : World)
    (cnf : list (option Config.t)) (st : state) (p : authPayload.t)
    (resp : Response) (m : gmap string JSON) (x : string) :
  Config.AccessToken (resolveConfig W cnf) = "" ->
  Config.UseForm (resolveConfig W cnf) = false ->
  buildPayload (defaultScope (resolveConfig W cnf)) = inl p ->
  url_Parse L (accessTokenUrlOf (resolveConfig W cnf)) = None ->
  client_Do W (Config.HttpClientConfig (resolveConfig W cnf))
            (tokenRequest L (resolveConfig W cnf) p) = inl resp ->
  is_2xx (StatusCode resp) ->
  json_Unmarshal L (RespBody resp) = inl m ->
  m !! "access_token" = Some (JString x) ->
  exists st',
    New L W cnf st = Ret (Some (Session.mk (length (heap st)) x), None) st' /\
    trace st'
    = (trace st
       ++ [EvDo (Config.HttpClientConfig (resolveConfig W cnf))
             (tokenRequest L (resolveConfig W cnf) p)])%list /\
    heap st' = (heap st ++ [defaultScope (resolveConfig W cnf)])%list.
Proof.
  intros Ht Hf Hp Hu Hdo Hcode Hm Hx.
  rewrite (New_exchange L W cnf st Ht). cbv zeta.
  rewrite getAccessToken_resultOf.
  assert (Hreq : http_NewRequest L "POST"
                   (endpointOf (resolveConfig W cnf) +:+ "/access_token")
                   (Some (json_Marshal L p))
                 = inl (mkRequest "POST"
                          (accessTokenUrlOf (resolveConfig W cnf)) ∅
                          (Some (json_Marshal L p)))).
  { rewrite http_NewRequest_POST. unfold accessTokenUrlOf in Hu.
    now rewrite Hu. }
  rewrite (requestToken_json L W (Session.mk (length (heap st)) "")
             (allocated W cnf st) (resolveConfig W cnf) p _
             (alloc_lookup _ _) Hf Hp Hreq).
  unfold Request_Header_Add. simpl ReqHeader. simpl Method. simpl URL.
  simpl ReqBody. rewrite content_type_header.
  unfold tokenRequest in Hdo. rewrite Hdo.
  unfold resultOf. rewrite (readToken_2xx L resp Hcode).
  unfold parseToken. rewrite Hm, Hx. simpl fmt_Sprintf_s.
  eexists. split; [reflexivity |]. simpl.
  split; [reflexivity |].
  replace (length (heap st)) with (length (heap st) + 0)%nat at 1 by lia.
  now rewrite insert_app_r.
Qed.

Lemma New_adopts_exchanged_token_witness :
  exists st',
    New Demo.lib (Demo.world Demo.ok_string) [] Demo.st0
    = Ret (Some (Session.mk 0%nat "X"), None) st'.
Proof.
  destruct (New_adopts_exchanged_token Demo.lib (Demo.world Demo.ok_string)
              [] Demo.st0
              (authPayload.mk "" "" "client_credentials" "" None None)
              Demo.ok_string {[ "access_token" := JString "X" ]} "X"
              eq_refl eq_refl eq_refl eq_refl eq_refl
              ltac:(unfold is_2xx; simpl; lia) eq_refl
              ltac:(apply lookup_singleton_eq))
    as (st' & Hnew & _).
  exists st'. exact Hnew.
Defined.
